(** * PartsTrack: the shared dialog base class [BaseDialog]

    A shallow embedding of [src/dialogs/base_dialog.py] and the proofs of
    its specification.

    The class is glue between two libraries: the Qt widget toolkit and the
    record-access layer ([lbk_library], [elements]).  Its methods are
    embedded as programs over the calls they make into those libraries
    ([Op]); a program is run against a handler that gives the calls their
    meaning.  Two kinds of handler are used:

    - an arbitrary handler, for the statements that hold whatever the
      libraries do (which calls are made, in which order, and what becomes
      of an exception a call raises);
    - the reference handler [Reference.handle], a model of the toolkit's
      table and button widgets (counts, header labels, cells, selection,
      enabled state), for the statements about what a widget holds
      afterwards. *)

From Stdlib Require Import ZArith String Ascii List Lia DecimalString.
From Stdlib Require DecimalPos DecimalZ.
From stdpp Require Import gmap strings list fin_maps.

Open Scope string_scope.
Open Scope Z_scope.
Open Scope list_scope.

(** ** Python values and builtins *)

Module Py.

(** An exception object: its class and its message. *)
Record exn := Exn { exn_class : string; exn_msg : string }.

Definition AttributeError (msg : string) : exn := Exn "AttributeError" msg.
Definition IndexError (msg : string) : exn := Exn "IndexError" msg.
Definition RuntimeError (msg : string) : exn := Exn "RuntimeError" msg.

(** Truth value of a [str]: only the empty string is falsy. *)
Definition truthy (s : string) : bool :=
  match s with
  | EmptyString => false
  | String _ _ => true
  end.

(** [str(n)] for an [int]. *)
Definition str (n : Z) : string := NilZero.string_of_int (Z.to_int n).

(** [int(s)] for a string of decimal digits with an optional minus sign. *)
Definition int_of_str (s : string) : option Z :=
  option_map Z.of_int (NilZero.int_of_string s).

(** A [float]: not-a-number, an infinity, or the finite value
    [(-1)^neg * m * 2^e] (a signed zero has [m = 0]). *)
Inductive float_t :=
| NaN
| Inf (neg : bool)
| Finite (neg : bool) (m : N) (e : Z).

(** [float(x)] where [x] already is a [float]: the value itself, and no
    exception.  ([float] of a string or of [None] can raise; such a cost
    is outside what is modelled here.) *)
Definition float (x : float_t) : float_t := x.

(** [num / den] rounded to the nearest integer, ties to even
    ([0 <= num], [0 < den]). *)
Definition round_half_even (num den : Z) : Z :=
  let q := num / den in
  let r := num mod den in
  match 2 * r ?= den with
  | Lt => q
  | Gt => q + 1
  | Eq => if Z.even q then q else q + 1
  end.

(** The magnitude [m * 2^e] in hundredths, correctly rounded. *)
Definition hundredths (m : N) (e : Z) : Z :=
  if 0 <=? e then Z.of_N m * 2 ^ e * 100
  else round_half_even (Z.of_N m * 100) (2 ^ (- e)).

Definition digit (n : Z) : ascii := ascii_of_nat (48 + Z.to_nat n).

Definition two_digits (n : Z) : string :=
  String (digit (n / 10)) (String (digit (n mod 10)) EmptyString).

Definition sign_prefix (neg : bool) : string := if neg then "-" else "".

(** [format(x, ".2f")]. *)
Definition format_2f (x : float_t) : string :=
  match x with
  | NaN => "nan"
  | Inf neg => sign_prefix neg +:+ "inf"
  | Finite neg m e =>
      let h := hundredths m e in
      sign_prefix neg +:+ str (h / 100) +:+ "." +:+ two_digits (h mod 100)
  end.

Definition is_finite (x : float_t) : bool :=
  match x with
  | Finite _ _ _ => true
  | _ => false
  end.

Definition is_digit (c : ascii) : bool :=
  let n := nat_of_ascii c in ((48 <=? n) && (n <=? 57))%nat.

(** A text that ends in a decimal point followed by exactly two digits. *)
Definition two_decimals (s : string) : Prop :=
  exists whole d1 d2,
    s = whole +:+ "." +:+ String d1 (String d2 EmptyString)
    /\ is_digit d1 = true /\ is_digit d2 = true.

End Py.

(** ** The records of the parts file *)

Module Elements.

(** Modelled from the spec: the [Order] record of the [elements] package
    (not part of this source file), by the getters the dialog calls. *)
Record Order := {
  order_order_number : string;
  order_date : string;
  order_source : string
}.

(** Modelled from the spec: the [OrderLine] record of the [elements]
    package, by the getters the dialog calls.  The cost is taken to be a
    [float], the line number and the quantity to be [int]s. *)
Record OrderLine := {
  order_number : string;
  line : Z;
  part_number : string;
  cost_each : Py.float_t;
  quantity : Z;
  remarks : string
}.

(** Modelled from the spec: the data file ("a record-oriented data file"),
    as the two tables of records that the dialog reads. *)
Record PartsFile := {
  order_lines_table : list OrderLine;
  orders_table : list Order
}.

(** Modelled from the spec: an [OrderLineSet] object once constructed,
    the list of records that its constructor's query returned
    (its "property set"), in query result order. *)
Record OrderLineSet := { property_set : list OrderLine }.

(** Modelled from the spec: [set_property_set] replaces the records that
    the set holds. *)
Definition set_property_set (s : OrderLineSet) (l : list OrderLine)
  : OrderLineSet := {| property_set := l |}.

(** Modelled from the spec: [get_number_elements] counts the records that
    the set holds; iterating over the set goes through the same records. *)
Definition get_number_elements (s : OrderLineSet) : nat :=
  length (property_set s).

(** The getters of the two records. *)
Definition get_order_number (l : OrderLine) : string := order_number l.
Definition get_line (l : OrderLine) : Z := line l.
Definition get_part_number (l : OrderLine) : string := part_number l.
Definition get_cost_each (l : OrderLine) : Py.float_t := cost_each l.
Definition get_quantity (l : OrderLine) : Z := quantity l.
Definition get_remarks (l : OrderLine) : string := remarks l.
Definition get_date (o : Order) : string := order_date o.
Definition get_source (o : Order) : string := order_source o.

End Elements.

(** ** The widgets *)

Module Qt.

(** [Qt.AlignmentFlag]: a bit mask, combined with [|]. *)
Definition AlignLeft : Z := 0x0001.
Definition AlignRight : Z := 0x0002.
Definition AlignHCenter : Z := 0x0004.
Definition AlignJustify : Z := 0x0008.
Definition AlignAbsolute : Z := 0x0010.
Definition AlignTop : Z := 0x0020.
Definition AlignBottom : Z := 0x0040.
Definition AlignVCenter : Z := 0x0080.
Definition AlignBaseline : Z := 0x0100.
Definition AlignHorizontal_Mask : Z := 0x001f.
Definition AlignVertical_Mask : Z := 0x01e0.

(** The horizontal and the vertical part of an alignment. *)
Definition horizontal (a : Z) : Z := Z.land a AlignHorizontal_Mask.
Definition vertical (a : Z) : Z := Z.land a AlignVertical_Mask.

(** [QHeaderView.ResizeMode]. *)
Inductive ResizeMode := Interactive | Stretch | Fixed | ResizeToContents.

(** A table cell: [QTableWidgetItem(text)] has no alignment flag set. *)
Record QTableWidgetItem := {
  text : string;
  textAlignment : Z
}.

Definition QTableWidgetItem_new (s : string) : QTableWidgetItem :=
  {| text := s; textAlignment := 0 |}.

Definition setTextAlignment (a : Z) (it : QTableWidgetItem)
  : QTableWidgetItem :=
  {| text := text it; textAlignment := a |}.

(** A table widget: its counts, the header labels set so far (for the
    columns from 0 on), its cells and the selected cells.  The geometry of
    the header (section sizes and resize modes) depends on the style and
    on the size of the viewport and is not part of this state. *)
Record QTableWidget := {
  columnCount : nat;
  rowCount : nat;
  horizontalHeaderLabels : list string;
  item : gmap (nat * nat) QTableWidgetItem;
  selectedItems : gset (nat * nat)
}.

Record QPushButton := { isEnabled : bool }.

(** Widgets are objects: the program holds references to them. *)
Definition QTableWidgetRef := nat.
Definition QPushButtonRef := nat.
Inductive QHeaderViewRef := HorizontalHeaderOf (t : QTableWidgetRef).

(** The form of a dialog (built by a subclass): the widgets used here. *)
Record Form := {
  save_new_button : QPushButtonRef;
  save_done_button : QPushButtonRef;
  order_table : QTableWidgetRef
}.

(** The live widgets. *)
Record World := {
  tables : gmap nat QTableWidget;
  buttons : gmap nat QPushButton
}.

End Qt.

(** ** Programs over library calls *)

Module Effect.
Import Py Elements Qt.

(** [lbk_library.gui.Dialog], the base class: what its constructor
    is given. *)
Record Dialog := {
  dlg_parent : nat;
  dlg_datafile : PartsFile;
  dlg_operation : Z
}.

(** The calls into the libraries, indexed by the type of their result. *)
Inductive Op : Type -> Type :=
| Dialog_get_datafile (d : Dialog) : Op PartsFile
| OrderLineSet_new (file : PartsFile)
    (where_column where_value order_by : string) : Op OrderLineSet
| Order_new (file : PartsFile) (key : string) : Op Order
| setColumnCount (t : QTableWidgetRef) (n : nat) : Op unit
| setHorizontalHeaderLabels (t : QTableWidgetRef) (labels : list string)
  : Op unit
| setColumnWidth (t : QTableWidgetRef) (column : nat) (width : Z) : Op unit
| horizontalHeader (t : QTableWidgetRef) : Op QHeaderViewRef
| setSectionResizeMode (h : QHeaderViewRef) (index : Z) (mode : ResizeMode)
  : Op unit
| setRowCount (t : QTableWidgetRef) (n : nat) : Op unit
| setItem (t : QTableWidgetRef) (row column : nat) (it : QTableWidgetItem)
  : Op unit
| setEnabled (b : QPushButtonRef) (enable : bool) : Op unit.

(** A program: it returns, raises, calls a library and goes on with the
    result, or runs a body under [try: ... except: ...] and goes on. *)
Inductive prog (A : Type) : Type :=
| Ret (a : A)
| Raise (e : exn)
| Call {X} (op : Op X) (k : X -> prog A)
| TryExcept {B} (body : prog B) (except : exn -> prog B)
    (k : B -> prog A).
Arguments Ret {A} a.
Arguments Raise {A} e.
Arguments Call {A X} op k.
Arguments TryExcept {A B} body except k.

Fixpoint bind {A B} (p : prog A) (f : A -> prog B) : prog B :=
  match p with
  | Ret a => f a
  | Raise e => Raise e
  | Call op k => Call op (fun x => bind (k x) f)
  | TryExcept body except k =>
      TryExcept body except (fun b => bind (k b) f)
  end.

Definition call {X} (op : Op X) : prog X := Call op Ret.

#[global] Instance prog_ret : MRet prog := @Ret.
#[global] Instance prog_bind : MBind prog := fun A B f p => bind p f.

(** How a call or a program ends: with a value or with an exception,
    and the widgets as they are then. *)
Inductive outcome (A : Type) :=
| Returned (a : A) (w : World)
| Raised (e : exn) (w : World).
Arguments Returned {A} a w.
Arguments Raised {A} e w.

Definition handler := forall X, Op X -> World -> outcome X.

(** One call made, and the exception it raised if it did. *)
Record event := Event {
  ev_call : { X : Type & Op X };
  ev_raised : option exn
}.

Definition called {X} (op : Op X) : event :=
  Event (existT X op) None.
Definition failed {X} (op : Op X) (e : exn) : event :=
  Event (existT X op) (Some e).

(** Running a program: the calls it made, in order, and how it ended. *)
Fixpoint exec {A} (h : handler) (p : prog A) (w : World)
  : list event * outcome A :=
  match p with
  | Ret a => ([], Returned a w)
  | Raise e => ([], Raised e w)
  | Call op k =>
      match h _ op w with
      | Returned x w1 =>
          let (tr, o) := exec h (k x) w1 in (called op :: tr, o)
      | Raised e w1 => ([failed op e], Raised e w1)
      end
  | TryExcept body except k =>
      let (tr1, o1) := exec h body w in
      match o1 with
      | Returned b w1 =>
          let (tr2, o2) := exec h (k b) w1 in (tr1 ++ tr2, o2)
      | Raised e w1 =>
          let (tr2, o2) := exec h (except e) w1 in
          match o2 with
          | Returned b w2 =>
              let (tr3, o3) := exec h (k b) w2 in (tr1 ++ tr2 ++ tr3, o3)
          | Raised e2 w2 => (tr1 ++ tr2, Raised e2 w2)
          end
      end
  end.

Definition trace {A} (h : handler) (p : prog A) (w : World) : list event :=
  fst (exec h p w).
Definition run {A} (h : handler) (p : prog A) (w : World) : outcome A :=
  snd (exec h p w).

(** A program without [try]. *)
Inductive try_free {A} : prog A -> Prop :=
| tf_ret (a : A) : try_free (Ret a)
| tf_raise (e : exn) : try_free (Raise e)
| tf_call {X} (op : Op X) (k : X -> prog A) :
    (forall x, try_free (k x)) -> try_free (Call op k).

(** A program without [try] all of whose calls are among [P]. *)
Inductive all_calls (P : { X : Type & Op X } -> Prop) {A} : prog A -> Prop :=
| ac_ret (a : A) : all_calls P (Ret a)
| ac_raise (e : exn) : all_calls P (Raise e)
| ac_call {X} (op : Op X) (k : X -> prog A) :
    P (existT X op) -> (forall x, all_calls P (k x)) ->
    all_calls P (Call op k).

End Effect.

(** ** The reference handler

    The toolkit is not part of this repository.  The reference handler
    models the table widget as the toolkit documents it:
    - [setRowCount(n)] and [setColumnCount(n)] discard the cells (and the
      selection) of the rows, or columns, from [n] on, and keep the rest;
      a column that goes loses its header label;
    - [setHorizontalHeaderLabels(l)] labels the columns that exist, as far
      as [l] goes, and leaves later labels alone;
    - [setItem(r, c, it)] stores the cell when row [r] and column [c]
      exist and does nothing otherwise;
    - [setColumnWidth] and [setSectionResizeMode] act on the geometry of
      the header, which the state does not hold: they leave the counts,
      labels, cells and selection alone (widths are taken to be C ints, as
      the binding requires);
    - a call on a widget that is gone raises.
    The statements about the calls made do not depend on this model. *)

Module Reference.
Import Py Elements Qt Effect.

(** The record-access layer: what the two constructors that query the
    data file return, or the exception they raise. *)
Record DataAccess := {
  query_order_lines :
    PartsFile -> string -> string -> string -> exn + list OrderLine;
  load_order : PartsFile -> string -> exn + Order
}.

Definition set_columnCount (n : nat) (t : QTableWidget) : QTableWidget :=
  {| columnCount := n; rowCount := rowCount t;
     horizontalHeaderLabels := take n (horizontalHeaderLabels t);
     item := filter (fun kv => (kv.1.2 < n)%nat) (item t);
     selectedItems := filter (fun k => (k.2 < n)%nat) (selectedItems t) |}.

Definition set_rowCount (n : nat) (t : QTableWidget) : QTableWidget :=
  {| columnCount := columnCount t; rowCount := n;
     horizontalHeaderLabels := horizontalHeaderLabels t;
     item := filter (fun kv => (kv.1.1 < n)%nat) (item t);
     selectedItems := filter (fun k => (k.1 < n)%nat) (selectedItems t) |}.

Definition set_labels (l : list string) (t : QTableWidget) : QTableWidget :=
  let k := Nat.min (columnCount t) (length l) in
  {| columnCount := columnCount t; rowCount := rowCount t;
     horizontalHeaderLabels := take k l ++ drop k (horizontalHeaderLabels t);
     item := item t; selectedItems := selectedItems t |}.

Definition set_item (r c : nat) (it : QTableWidgetItem) (t : QTableWidget)
  : QTableWidget :=
  {| columnCount := columnCount t; rowCount := rowCount t;
     horizontalHeaderLabels := horizontalHeaderLabels t;
     item := if decide ((r < rowCount t)%nat /\ (c < columnCount t)%nat)
             then <[(r, c) := it]> (item t)
             else item t;
     selectedItems := selectedItems t |}.

Definition put_table (t : QTableWidgetRef) (tb : QTableWidget) (w : World)
  : World :=
  {| tables := <[t := tb]> (tables w); buttons := buttons w |}.

Definition put_button (b : QPushButtonRef) (bt : QPushButton) (w : World)
  : World :=
  {| tables := tables w; buttons := <[b := bt]> (buttons w) |}.

(** A call on a widget that is gone. *)
Definition deleted (cls : string) : exn :=
  RuntimeError ("wrapped C/C++ object of type " +:+ cls +:+
                " has been deleted").

Definition with_table (t : QTableWidgetRef)
    (f : QTableWidget -> QTableWidget) (w : World) : outcome unit :=
  match tables w !! t with
  | Some tb => Returned tt (put_table t (f tb) w)
  | None => Raised (deleted "QTableWidget") w
  end.

Definition with_button (b : QPushButtonRef)
    (f : QPushButton -> QPushButton) (w : World) : outcome unit :=
  match buttons w !! b with
  | Some bt => Returned tt (put_button b (f bt) w)
  | None => Raised (deleted "QPushButton") w
  end.

Definition of_sum {X} (r : exn + X) (w : World) : outcome X :=
  match r with
  | inl e => Raised e w
  | inr x => Returned x w
  end.

(** The geometry of the header is not held: a call that acts on it leaves
    the table as it is. *)
Definition geometry (t : QTableWidget) : QTableWidget := t.

Definition handle (da : DataAccess) : handler :=
  fun X op =>
    match op in Op X return World -> outcome X with
    | Dialog_get_datafile d => Returned (dlg_datafile d)
    | OrderLineSet_new file c v o =>
        of_sum (sum_map id Build_OrderLineSet
                  (query_order_lines da file c v o))
    | Order_new file key => of_sum (load_order da file key)
    | setColumnCount t n => with_table t (set_columnCount n)
    | setHorizontalHeaderLabels t l => with_table t (set_labels l)
    | setColumnWidth t i wd => with_table t geometry
    | horizontalHeader t => fun w =>
        match tables w !! t with
        | Some _ => Returned (HorizontalHeaderOf t) w
        | None => Raised (deleted "QTableWidget") w
        end
    | setSectionResizeMode (HorizontalHeaderOf t) i m =>
        with_table t geometry
    | setRowCount t n => with_table t (set_rowCount n)
    | setItem t r c it => with_table t (set_item r c it)
    | setEnabled b e => with_button b (fun _ => {| isEnabled := e |})
    end.

End Reference.

(** ** The class *)

Module BaseDialog.
Import Py Elements Qt Effect.

(** An instance: the state of the base class and the form. *)
Record t := {
  base : Dialog;
  form : option Form
}.

Definition PART_ORDER_COL_NAMES : list string :=
  [ "Order"; "Date"; "Source"; "Line"; "Part Number"; "Cost Each";
    "Quantity"; "Remarks" ].

Definition PART_ORDER_COL_WIDTHS : list Z :=
  [ 60; 100; 60; 40; 120; 70; 100; 1 ].

Definition init (parent : nat) (parts_file : PartsFile) (operation : Z)
  : t :=
  {| base := {| dlg_parent := parent; dlg_datafile := parts_file;
                dlg_operation := operation |};
     form := None |}.

(** [self.form.<name>]: the form is [None] until a subclass builds it. *)
Definition form_attr {X} (self : t) (name : string) (get : Form -> X)
  : prog X :=
  match form self with
  | Some f => Ret (get f)
  | None =>
      Raise (AttributeError
               ("'NoneType' object has no attribute '" +:+ name +:+ "'"))
  end.

(** [for x in l: body], with the local variables the body assigns
    threaded through as [s]. *)
Fixpoint for_in {A S} (l : list A) (body : S -> A -> prog S) (s : S)
  : prog S :=
  match l with
  | [] => Ret s
  | x :: l' => s' ← body s x; for_in l' body s'
  end.

(** [l[i]]. *)
Definition index {A} (l : list A) (i : nat) : prog A :=
  match l !! i with
  | Some x => Ret x
  | None => Raise (IndexError "list index out of range")
  end.

Definition get_parts_file (self : t) : prog PartsFile :=
  call (Dialog_get_datafile (base self)).

Definition set_table_header (self : t) (table : QTableWidgetRef)
    (col_names : list string) (col_widths : list Z)
    (stretch_column : option Z) : prog unit :=
  call (setColumnCount table (length col_names));;
  call (setHorizontalHeaderLabels table col_names);;
  for_in (seq 0 (length col_widths))
    (fun _ i =>
       wd ← index col_widths i;
       call (setColumnWidth table i wd)) tt;;
  match stretch_column with
  | Some c =>
      h ← call (horizontalHeader table);
      call (setSectionResizeMode h c Stretch)
  | None => Ret tt
  end.

Definition save_buttons_enable (self : t) (enable : bool) : prog unit :=
  b ← form_attr self "save_new_button" save_new_button;
  call (setEnabled b enable);;
  b ← form_attr self "save_done_button" save_done_button;
  call (setEnabled b enable).

(** One pass of the loop of [fill_order_table_fields]. *)
Definition fill_row (self : t) (table : QTableWidgetRef) (row : nat)
    (order_line : OrderLine) : prog nat :=
  file ← get_parts_file self;
  order ← call (Order_new file (get_order_number order_line));
  let entry := QTableWidgetItem_new (get_order_number order_line) in
  let entry := setTextAlignment (Z.lor AlignHCenter AlignVCenter) entry in
  call (setItem table row 0 entry);;
  let entry := QTableWidgetItem_new (get_date order) in
  let entry := setTextAlignment (Z.lor AlignHCenter AlignVCenter) entry in
  call (setItem table row 1 entry);;
  call (setItem table row 2 (QTableWidgetItem_new (get_source order)));;
  let entry := QTableWidgetItem_new (str (get_line order_line)) in
  let entry := setTextAlignment (Z.lor AlignHCenter AlignVCenter) entry in
  call (setItem table row 3 entry);;
  let entry := QTableWidgetItem_new (get_part_number order_line) in
  call (setItem table row 4 entry);;
  let entry :=
    QTableWidgetItem_new (format_2f (float (get_cost_each order_line))) in
  let entry := setTextAlignment (Z.lor AlignRight AlignVCenter) entry in
  call (setItem table row 5 entry);;
  let entry := QTableWidgetItem_new (str (get_quantity order_line)) in
  let entry := setTextAlignment (Z.lor AlignHCenter AlignVCenter) entry in
  call (setItem table row 6 entry);;
  call (setItem table row 7 (QTableWidgetItem_new (get_remarks order_line)));;
  Ret (row + 1)%nat.

Definition fill_order_table_fields (self : t) (part_number : string)
  : prog unit :=
  file ← get_parts_file self;
  order_lines ←
    call (OrderLineSet_new file "part_number" part_number "order_number");
  let order_lines :=
    if negb (truthy part_number) then set_property_set order_lines []
    else order_lines in
  table ← form_attr self "order_table" order_table;
  call (setRowCount table (get_number_elements order_lines));;
  for_in (property_set order_lines) (fill_row self table) 0%nat;;
  Ret tt.

End BaseDialog.

(** ** What the methods are expected to do *)

Module Expected.
Import Py Elements Qt Effect Reference.

(** The three operations of the class that act on widgets. *)
Inductive operation :=
| Set_table_header (self : BaseDialog.t) (table : QTableWidgetRef)
    (col_names : list string) (col_widths : list Z)
    (stretch_column : option Z)
| Save_buttons_enable (self : BaseDialog.t) (enable : bool)
| Fill_order_table_fields (self : BaseDialog.t) (part_number : string).

Definition perform (o : operation) : prog unit :=
  match o with
  | Set_table_header self table names widths stretch =>
      BaseDialog.set_table_header self table names widths stretch
  | Save_buttons_enable self enable =>
      BaseDialog.save_buttons_enable self enable
  | Fill_order_table_fields self part_number =>
      BaseDialog.fill_order_table_fields self part_number
  end.

Definition centred (s : string) : QTableWidgetItem :=
  {| text := s; textAlignment := Z.lor AlignHCenter AlignVCenter |}.
Definition flush_right (s : string) : QTableWidgetItem :=
  {| text := s; textAlignment := Z.lor AlignRight AlignVCenter |}.
Definition plain (s : string) : QTableWidgetItem :=
  {| text := s; textAlignment := 0 |}.

(** The eight cells of the row of an order line. *)
Definition order_row (o : Order) (l : OrderLine) : list QTableWidgetItem :=
  [ centred (order_number l); centred (order_date o);
    plain (order_source o); centred (str (line l));
    plain (part_number l); flush_right (format_2f (cost_each l));
    centred (str (quantity l)); plain (remarks l) ].

(** A table after the cells [cells] went into row [r] from column [c]. *)
Fixpoint put_cells (r c : nat) (cells : list QTableWidgetItem)
    (tb : QTableWidget) : QTableWidget :=
  match cells with
  | [] => tb
  | it :: rest => put_cells r (S c) rest (set_item r c it tb)
  end.

(** A table after one row per pair went in, from row [r] on. *)
Fixpoint put_rows (r : nat) (rows : list (Order * OrderLine))
    (tb : QTableWidget) : QTableWidget :=
  match rows with
  | [] => tb
  | (o, l) :: rest => put_rows (S r) rest (put_cells r 0 (order_row o l) tb)
  end.

(** The calls of one pass of the loop, and of the whole loop. *)
Definition cell_events (t : QTableWidgetRef) (r : nat)
    (cells : list QTableWidgetItem) : list event :=
  imap (fun c it => called (setItem t r c it)) cells.

Definition row_events (self : BaseDialog.t) (t : QTableWidgetRef) (r : nat)
    (o : Order) (l : OrderLine) : list event :=
  called (Dialog_get_datafile (BaseDialog.base self))
  :: called (Order_new (dlg_datafile (BaseDialog.base self))
               (order_number l))
  :: cell_events t r (order_row o l).

Fixpoint rows_events (self : BaseDialog.t) (t : QTableWidgetRef) (r : nat)
    (rows : list (Order * OrderLine)) : list event :=
  match rows with
  | [] => []
  | (o, l) :: rest => row_events self t r o l ++ rows_events self t (S r) rest
  end.

(** The table that set_table_header leaves. *)
Definition with_header (names : list string) (tb : QTableWidget)
  : QTableWidget :=
  set_labels names (set_columnCount (length names) tb).

(** The calls that set the widths of the columns from [i] on. *)
Fixpoint width_events (t : QTableWidgetRef) (i : nat) (widths : list Z)
  : list event :=
  match widths with
  | [] => []
  | wd :: rest => called (setColumnWidth t i wd) :: width_events t (S i) rest
  end.

(** The calls for the stretch column, when there is one. *)
Definition stretch_events (t : QTableWidgetRef) (stretch_column : option Z)
  : list event :=
  match stretch_column with
  | Some c =>
      [ called (horizontalHeader t);
        called (setSectionResizeMode (HorizontalHeaderOf t) c Stretch) ]
  | None => []
  end.

(** The calls that set_table_header may make on [table], given the number
    of widths and the stretch column. *)
Definition header_call (table : QTableWidgetRef) (n : nat)
    (stretch_column : option Z) (c : { X : Type & Op X }) : Prop :=
  match projT2 c with
  | setColumnCount t _ => t = table
  | setHorizontalHeaderLabels t _ => t = table
  | setColumnWidth t i _ => t = table /\ (i < n)%nat
  | horizontalHeader t => t = table /\ stretch_column <> None
  | setSectionResizeMode _ c m => stretch_column = Some c /\ m = Stretch
  | _ => False
  end.

(** The order numbers looked up, and the rows written, along a trace. *)
Definition order_looked_up (ev : event) : option string :=
  match projT2 (ev_call ev) with
  | Order_new _ key => Some key
  | _ => None
  end.

Definition cell_written (ev : event) : option (nat * nat) :=
  match projT2 (ev_call ev) with
  | setItem _ r c _ => Some (r, c)
  | _ => None
  end.

Definition orders_looked_up (tr : list event) : list string :=
  omap order_looked_up tr.
Definition cells_written (tr : list event) : list (nat * nat) :=
  omap cell_written tr.

(** The cells of the rows [r], [r+1], ..., [r+n-1], row by row. *)
Fixpoint cells_of_rows (r n : nat) : list (nat * nat) :=
  match n with
  | O => []
  | S n' => map (pair r) (seq 0 8) ++ cells_of_rows (S r) n'
  end.

(** A cell that is there, with the horizontal alignment [h] and the
    vertical alignment [v]. *)
Definition aligned (h v : Z) (cell : option QTableWidgetItem) : Prop :=
  exists it,
    cell = Some it
    /\ horizontal (textAlignment it) = h
    /\ vertical (textAlignment it) = v.

(** The text that belongs under a column name. *)
Definition column_text (name : string) (o : Order) (l : OrderLine)
  : option string :=
  if String.eqb name "Order" then Some (order_number l)
  else if String.eqb name "Date" then Some (order_date o)
  else if String.eqb name "Source" then Some (order_source o)
  else if String.eqb name "Line" then Some (str (line l))
  else if String.eqb name "Part Number" then Some (part_number l)
  else if String.eqb name "Cost Each" then Some (format_2f (cost_each l))
  else if String.eqb name "Quantity" then Some (str (quantity l))
  else if String.eqb name "Remarks" then Some (remarks l)
  else None.

(** Every line of [rows] is paired with the order that its order
    number loads. *)
Definition loaded (da : DataAccess) (file : PartsFile)
    (rows : list (Order * OrderLine)) : Prop :=
  Forall (fun ol => load_order da file (order_number ol.2) = inr ol.1) rows.

(** The order lines that the loop goes through. *)
Definition lines_shown (part_number : string) (queried : list OrderLine)
  : list OrderLine :=
  if truthy part_number then queried else [].

End Expected.

(** ** A small parts file, for the examples *)

Module Sample.
Import Py Elements Qt Effect Reference.

(** Records of the table whose column [part_number] equals the value,
    in the order of the table. *)
Definition select_lines (file : PartsFile) (column value : string)
  : list OrderLine :=
  if String.eqb column "part_number"
  then filter (fun l => part_number l = value) (order_lines_table file)
  else [].

Definition find_order (file : PartsFile) (key : string) : Order :=
  match filter (fun o => order_order_number o = key) (orders_table file) with
  | o :: _ => o
  | [] => {| order_order_number := key; order_date := ""; order_source := "" |}
  end.

Definition db : DataAccess :=
  {| query_order_lines := fun file c v _ => inr (select_lines file c v);
     load_order := fun file key => inr (find_order file key) |}.

Definition line1 : OrderLine :=
  {| order_number := "06-001"; line := 2; part_number := "BTB1108";
     cost_each := Finite false 25 (-1); quantity := 4;
     remarks := "rear" |}.
Definition line2 : OrderLine :=
  {| order_number := "07-013"; line := 1; part_number := "BTB1108";
     cost_each := Finite false 3 (-3); quantity := 10; remarks := "" |}.
Definition line3 : OrderLine :=
  {| order_number := "07-013"; line := 2; part_number := "";
     cost_each := Finite false 1 0; quantity := 1;
     remarks := "part number not entered yet" |}.

Definition order1 : Order :=
  {| order_order_number := "06-001"; order_date := "01/15/2006";
     order_source := "Moss" |}.
Definition order2 : Order :=
  {| order_order_number := "07-013"; order_date := "03/02/2007";
     order_source := "Victoria British" |}.

(** A line whose cost is not a finite number. *)
Definition line4 : OrderLine :=
  {| order_number := "07-013"; line := 3; part_number := "GHF331";
     cost_each := Inf false; quantity := 1; remarks := "price on request" |}.

Definition file : PartsFile :=
  {| order_lines_table := [line1; line2; line3; line4];
     orders_table := [order1; order2] |}.

Definition empty_table : QTableWidget :=
  {| columnCount := 0; rowCount := 0; horizontalHeaderLabels := [];
     item := ∅; selectedItems := ∅ |}.

(** An order table in use: the eight columns, three rows, a cell left in
    row 0 and one in row 2, which is selected. *)
Definition stale : QTableWidgetItem := {| text := "old"; textAlignment := 0 |}.

Definition used_table : QTableWidget :=
  {| columnCount := 8; rowCount := 3;
     horizontalHeaderLabels := BaseDialog.PART_ORDER_COL_NAMES;
     item := {[ (0%nat, 5%nat) := stale; (2%nat, 0%nat) := stale ]};
     selectedItems := {[ (2%nat, 0%nat) ]} |}.

Definition the_form : Form :=
  {| save_new_button := 1%nat; save_done_button := 2%nat;
     order_table := 0%nat |}.

Definition world : World :=
  {| tables := {[ 0%nat := empty_table ]};
     buttons := {[ 1%nat := {| isEnabled := true |};
                   2%nat := {| isEnabled := false |} ]} |}.

Definition used_world : World :=
  {| tables := {[ 0%nat := used_table ]};
     buttons := {[ 1%nat := {| isEnabled := true |};
                   2%nat := {| isEnabled := false |} ]} |}.

(** A dialog as [__init__] leaves it, and one whose form is built. *)
Definition fresh : BaseDialog.t := BaseDialog.init 0%nat file 1.
Definition dialog : BaseDialog.t :=
  {| BaseDialog.base := BaseDialog.base fresh;
     BaseDialog.form := Some the_form |}.

End Sample.

(** ** Further behaviour: what is needed to state it *)

Module Behaviour.
Import Py Elements Qt Effect Reference Expected.

(** A program without [try] whose own [raise] statements all raise an
    exception among [Q]. *)
Inductive own_raises (Q : exn -> Prop) {A} : prog A -> Prop :=
| or_ret (a : A) : own_raises Q (Ret a)
| or_raise (e : exn) : Q e -> own_raises Q (Raise e)
| or_call {X} (op : Op X) (k : X -> prog A) :
    (forall x, own_raises Q (k x)) -> own_raises Q (Call op k).

(** A call to the record-access layer. *)
Definition data_call (c : { X : Type & Op X }) : Prop :=
  match projT2 c with
  | Dialog_get_datafile _ => True
  | OrderLineSet_new _ _ _ _ => True
  | Order_new _ _ => True
  | _ => False
  end.

(** The calls that fill_order_table_fields may make. *)
Definition fill_call (self : BaseDialog.t) (part_number : string)
    (c : { X : Type & Op X }) : Prop :=
  match projT2 c with
  | Dialog_get_datafile d => d = BaseDialog.base self
  | OrderLineSet_new _ column value order_by =>
      column = "part_number" /\ value = part_number
      /\ order_by = "order_number"
  | Order_new _ _ => True
  | setRowCount t _ =>
      exists f, BaseDialog.form self = Some f /\ t = order_table f
  | setItem t _ c _ =>
      (exists f, BaseDialog.form self = Some f /\ t = order_table f)
      /\ (c < 8)%nat
  | _ => False
  end.

(** The two calls of save_buttons_enable. *)
Definition enable_calls (f : Form) (enable : bool)
  : list { X : Type & Op X } :=
  [ ev_call (called (setEnabled (save_new_button f) enable));
    ev_call (called (setEnabled (save_done_button f) enable)) ].

(** A table in which every cell of the first [rowCount] rows and
    [columnCount] columns is there. *)
Definition filled (tb : QTableWidget) : Prop :=
  forall r c, (r < rowCount tb)%nat -> (c < columnCount tb)%nat ->
              is_Some (item tb !! (r, c)).

(** An integer that fits a C [int]. *)
Definition c_int (z : Z) : Prop := - 2 ^ 31 <= z < 2 ^ 31.

(** The distance of [h] hundredths from the magnitude [m * 2^e], times
    [2^-e] (for [e < 0]). *)
Definition rounding_error (m : N) (e : Z) (h : Z) : Z :=
  Z.abs (h * 2 ^ (- e) - Z.of_N m * 100).

(** A record-access layer whose query raises, and one in which the order
    with the number [key] does not load. *)
Definition no_query (e : exn) : DataAccess :=
  {| query_order_lines := fun _ _ _ _ => inl e;
     load_order := load_order Sample.db |}.


Definition OperationalError : exn := Exn "OperationalError" "disk I/O error".

End Behaviour.

(** ** Running programs: general facts *)

Module EffectFacts.
Import Py Elements Qt Effect Expected.

Lemma exec_bind {A B} (h : handler) (p : prog A) (f : A -> prog B) w :
  exec h (bind p f) w =
  match exec h p w with
  | (tr, Returned a w1) =>
      let (tr2, o) := exec h (f a) w1 in (tr ++ tr2, o)
  | (tr, Raised e w1) => (tr, Raised e w1)
  end.
Proof.
  revert B f w.
  induction p as [A a|A e|A X op k IH|A C body _ except _ k IH];
    intros B f w.
  - simpl. destruct (exec h (f a) w). reflexivity.
  - reflexivity.
  - simpl. destruct (h X op w) as [x w1|e w1]; [|reflexivity].
    rewrite IH. destruct (exec h (k x) w1) as [tr [a w2|e w2]].
    + destruct (exec h (f a) w2). reflexivity.
    + reflexivity.
  - simpl. destruct (exec h body w) as [tr1 [b w1|e w1]].
    + rewrite IH. destruct (exec h (k b) w1) as [tr2 [a w2|e w2]].
      * destruct (exec h (f a) w2). rewrite app_assoc. reflexivity.
      * reflexivity.
    + destruct (exec h (except e) w1) as [tr2 [b w2|e2 w2]].
      * rewrite IH. destruct (exec h (k b) w2) as [tr3 [a w3|e3 w3]].
        -- destruct (exec h (f a) w3). rewrite !app_assoc. reflexivity.
        -- reflexivity.
      * reflexivity.
Qed.

Lemma try_free_bind {A B} (p : prog A) (f : A -> prog B) :
  try_free p -> (forall a, try_free (f a)) -> try_free (bind p f).
Proof.
  intros Hp Hf. induction Hp as [a|e|X op k _ IH]; simpl.
  - apply Hf.
  - constructor.
  - constructor. exact IH.
Qed.

Lemma try_free_call {X} (op : Op X) : try_free (call op).
Proof. constructor. intros x. constructor. Qed.

(** Without [try], a call that raises is the last call made, and the
    program ends with the exception of that call. *)
Lemma try_free_propagates {A} (h : handler) (p : prog A) w c e :
  try_free p ->
  In (Event c (Some e)) (trace h p w) ->
  exists tr w1,
    trace h p w = tr ++ [Event c (Some e)] /\ run h p w = Raised e w1.
Proof.
  unfold trace, run. intros Hp. revert w.
  induction Hp as [a|e0|X op k _ IH]; intros w; simpl.
  - intros [].
  - intros [].
  - destruct (h X op w) as [x w1|e1 w1].
    + specialize (IH x w1).
      destruct (exec h (k x) w1) as [tr o]. simpl in *.
      intros [Heq|Hin]; [discriminate Heq|].
      destruct (IH Hin) as (tr0 & w2 & -> & ->).
      exists (called op :: tr0), w2. split; reflexivity.
    + simpl. intros [Heq|[]]. injection Heq as <- <-.
      exists [], w1. split; reflexivity.
Qed.

(** Without [try], a program that ends with an exception got it from
    its last call or raised it itself: no earlier call had raised. *)
Lemma try_free_no_recovery {A} (h : handler) (p : prog A) w ev :
  try_free p ->
  In ev (removelast (trace h p w)) -> ev_raised ev = None.
Proof.
  unfold trace. intros Hp. revert w.
  induction Hp as [a|e0|X op k _ IH]; intros w; simpl.
  - intros [].
  - intros [].
  - destruct (h X op w) as [x w1|e1 w1]; simpl; [|intros []].
    specialize (IH x w1).
    destruct (exec h (k x) w1) as [tr o]. simpl in *.
    destruct tr as [|ev1 tr]; simpl; [intros []|].
    intros [<-|Hin]; [reflexivity|]. apply IH. exact Hin.
Qed.

Lemma try_free_for_in {A S} (body : S -> A -> prog S) (l : list A) :
  (forall s x, try_free (body s x)) ->
  forall s, try_free (BaseDialog.for_in l body s).
Proof.
  intros Hb. induction l as [|x l IH]; intros s; simpl.
  - constructor.
  - apply try_free_bind; [apply Hb|exact IH].
Qed.

Lemma try_free_form_attr {X} self name (get : Form -> X) :
  try_free (BaseDialog.form_attr self name get).
Proof. unfold BaseDialog.form_attr. destruct (BaseDialog.form self); constructor. Qed.

Lemma try_free_index {A} (l : list A) i : try_free (BaseDialog.index l i).
Proof. unfold BaseDialog.index. destruct (l !! i); constructor. Qed.

Create HintDb try_free.
#[local] Hint Resolve try_free_call try_free_form_attr try_free_index
  : try_free.
#[local] Hint Constructors try_free : try_free.

Ltac try_free_steps :=
  repeat first
    [ solve [auto with try_free]
    | apply try_free_for_in; intros ? ?
    | apply try_free_bind; [|intros ?] ].

Lemma try_free_get_parts_file self :
  try_free (BaseDialog.get_parts_file self).
Proof. apply try_free_call. Qed.

Lemma try_free_set_table_header self table names widths stretch :
  try_free (BaseDialog.set_table_header self table names widths stretch).
Proof.
  unfold BaseDialog.set_table_header, mbind, prog_bind.
  try_free_steps. destruct stretch; try_free_steps.
Qed.

Lemma try_free_save_buttons_enable self enable :
  try_free (BaseDialog.save_buttons_enable self enable).
Proof.
  unfold BaseDialog.save_buttons_enable, mbind, prog_bind. try_free_steps.
Qed.

Lemma try_free_fill_row self table row order_line :
  try_free (BaseDialog.fill_row self table row order_line).
Proof.
  unfold BaseDialog.fill_row, BaseDialog.get_parts_file, mbind, prog_bind.
  try_free_steps.
Qed.

#[local] Hint Resolve try_free_fill_row : try_free.

Lemma try_free_fill_order_table_fields self part_number :
  try_free (BaseDialog.fill_order_table_fields self part_number).
Proof.
  unfold BaseDialog.fill_order_table_fields, BaseDialog.get_parts_file,
    mbind, prog_bind.
  try_free_steps.
Qed.

Lemma all_calls_bind P {A B} (p : prog A) (f : A -> prog B) :
  all_calls P p -> (forall a, all_calls P (f a)) -> all_calls P (bind p f).
Proof.
  intros Hp Hf. induction Hp as [a|e|X op k Hop _ IH]; simpl.
  - apply Hf.
  - constructor.
  - constructor; [exact Hop|exact IH].
Qed.

Lemma all_calls_for_in P {A S} (body : S -> A -> prog S) (l : list A) :
  (forall s x, x ∈ l -> all_calls P (body s x)) ->
  forall s, all_calls P (BaseDialog.for_in l body s).
Proof.
  induction l as [|x l IH]; intros Hb s; simpl.
  - constructor.
  - apply all_calls_bind.
    + apply Hb. left.
    + apply IH. intros s' y Hy. apply Hb. by right.
Qed.

(** Whatever the libraries do, the calls made are among [P]. *)
Lemma all_calls_trace P {A} (h : handler) (p : prog A) w :
  all_calls P p -> Forall (fun ev => P (ev_call ev)) (trace h p w).
Proof.
  unfold trace. intros Hp. revert w.
  induction Hp as [a|e|X op k Hop _ IH]; intros w; simpl.
  - constructor.
  - constructor.
  - destruct (h X op w) as [x w1|e w1]; simpl.
    + specialize (IH x w1). destruct (exec h (k x) w1) as [tr o].
      simpl in *. constructor; [exact Hop|exact IH].
    + constructor; [exact Hop|constructor].
Qed.

Lemma set_table_header_calls self table names widths stretch :
  all_calls (header_call table (length widths) stretch)
    (BaseDialog.set_table_header self table names widths stretch).
Proof.
  unfold BaseDialog.set_table_header, mbind, prog_bind.
  apply all_calls_bind; [constructor; [reflexivity|constructor]|intros _].
  apply all_calls_bind; [constructor; [reflexivity|constructor]|intros _].
  apply all_calls_bind.
  - apply all_calls_for_in. intros _ i Hi.
    apply elem_of_seq in Hi.
    unfold BaseDialog.index. destruct (widths !! i); simpl.
    + constructor; [|constructor]. split; [reflexivity|lia].
    + constructor.
  - intros _. destruct stretch as [c|]; simpl.
    + constructor; [split; [reflexivity|discriminate]|].
      intros hv. constructor; [|constructor]. split; reflexivity.
    + constructor.
Qed.

End EffectFacts.

(** ** Formatting: facts *)

Module PyFacts.
Import Py.

Lemma append_assoc (a b c : string) : (a +:+ b) +:+ c = a +:+ b +:+ c.
Proof.
  induction a as [|x a IH]; [reflexivity|].
  change (String x ((a +:+ b) +:+ c) = String x (a +:+ b +:+ c)).
  by rewrite IH.
Qed.

Lemma is_digit_digit n : 0 <= n <= 9 -> is_digit (digit n) = true.
Proof.
  intros H.
  assert (Hn : exists k, (k < 10)%nat /\ n = Z.of_nat k).
  { exists (Z.to_nat n). lia. }
  destruct Hn as (k & Hk & ->).
  do 10 (destruct k as [|k]; [reflexivity|]). lia.
Qed.

Example str_zero : str 0 = "0".
Proof. reflexivity. Qed.

Example str_negative : str (-12) = "-12".
Proof. reflexivity. Qed.

(** 12.5, 0.125 (a tie, to even), 0.375 (a tie, to even), -0.0,
    2.675 (which is 0x15666666666666 * 2^-51, just below 2.675). *)
Example format_2f_12_5 : format_2f (Finite false 25 (-1)) = "12.50".
Proof. reflexivity. Qed.

Example format_2f_tie_down : format_2f (Finite false 1 (-3)) = "0.12".
Proof. reflexivity. Qed.

Example format_2f_tie_up : format_2f (Finite false 3 (-3)) = "0.38".
Proof. reflexivity. Qed.

Example format_2f_minus_zero : format_2f (Finite true 0 0) = "-0.00".
Proof. reflexivity. Qed.

Example format_2f_2_675 :
  format_2f (Finite false 0x15666666666666 (-51)) = "2.67".
Proof. vm_compute. reflexivity. Qed.

Example format_2f_inf : format_2f (Inf true) = "-inf".
Proof. reflexivity. Qed.

(** A finite value is shown with exactly two digits after the point. *)
Lemma format_2f_two_decimals x :
  is_finite x = true -> two_decimals (format_2f x).
Proof.
  destruct x as [|neg|neg m e]; try discriminate. intros _.
  unfold format_2f, two_digits.
  set (h := hundredths m e).
  exists (sign_prefix neg +:+ str (h / 100)),
    (digit (h mod 100 / 10)), (digit ((h mod 100) mod 10)).
  split; [|split].
  - by rewrite append_assoc.
  - apply is_digit_digit.
    pose proof (Z.mod_pos_bound h 100 ltac:(lia)).
    split; [apply Z.div_pos; lia|].
    apply Z.lt_succ_r, Z.div_lt_upper_bound; lia.
  - apply is_digit_digit.
    pose proof (Z.mod_pos_bound (h mod 100) 10 ltac:(lia)). lia.
Qed.

(** Reading back what [str] wrote gives the number. *)
Lemma int_of_str_str n : int_of_str (str n) = Some n.
Proof.
  unfold int_of_str, str. rewrite NilZero.isi.
  - simpl. rewrite DecimalZ.of_to. reflexivity.
  - destruct n; simpl; try discriminate.
    intros [= H]. exact (DecimalPos.Unsigned.to_uint_nonnil _ H).
  - destruct n; simpl; try discriminate.
    intros [= H]. exact (DecimalPos.Unsigned.to_uint_nonnil _ H).
Qed.

(** Rounding to the nearest integer, ties to even. *)
Lemma round_half_even_nearest num den :
  0 <= num -> 0 < den ->
  let h := round_half_even num den in
  0 <= h
  /\ 2 * Z.abs (h * den - num) <= den
  /\ (2 * Z.abs (h * den - num) = den -> Z.even h = true).
Proof.
  intros Hnum Hden. unfold round_half_even.
  pose proof (Z.div_mod num den ltac:(lia)) as Hdm.
  pose proof (Z.mod_pos_bound num den Hden) as Hr.
  pose proof (Z.div_pos num den Hnum Hden) as Hq.
  set (q := num / den) in *. set (r := num mod den) in *.
  assert (E0 : q * den - num = - r) by lia.
  assert (E1 : (q + 1) * den - num = den - r) by lia.
  destruct (Z.compare_spec (2 * r) den) as [Heq|Hlt|Hgt]; cbv zeta.
  - destruct (Z.even q) eqn:Hev.
    + rewrite E0. split; [lia|]. split; [lia|]. intros _. exact Hev.
    + rewrite E1. split; [lia|]. split; [lia|]. intros _.
      rewrite Z.even_add, Hev. reflexivity.
  - rewrite E0. split; [lia|]. split; lia.
  - rewrite E1. split; [lia|]. split; lia.
Qed.

End PyFacts.

(** ** The reference handler: facts *)

Module ReferenceFacts.
Import Py Elements Qt Effect Reference Expected EffectFacts.

#[local] Arguments with_table : simpl never.
#[local] Arguments with_button : simpl never.
#[local] Arguments of_sum : simpl never.
#[local] Arguments put_table : simpl never.
#[local] Arguments put_button : simpl never.
#[local] Arguments set_item : simpl never.
#[local] Arguments set_rowCount : simpl never.
#[local] Arguments set_columnCount : simpl never.
#[local] Arguments set_labels : simpl never.

Lemma with_table_alive t f w tb :
  tables w !! t = Some tb ->
  with_table t f w = Returned tt (put_table t (f tb) w).
Proof. unfold with_table. intros ->. reflexivity. Qed.

Lemma with_table_put t f tb w :
  with_table t f (put_table t tb w) = Returned tt (put_table t (f tb) w).
Proof.
  unfold with_table, put_table. simpl.
  rewrite lookup_insert_eq, insert_insert_eq. reflexivity.
Qed.

Lemma tables_put_table t tb w : tables (put_table t tb w) !! t = Some tb.
Proof. unfold put_table. simpl. apply lookup_insert_eq. Qed.

Lemma tables_put_table_ne t t' tb w :
  t ≠ t' -> tables (put_table t tb w) !! t' = tables w !! t'.
Proof. intros Hne. unfold put_table. simpl. by apply lookup_insert_ne. Qed.

Lemma put_table_put_table t tb1 tb2 w :
  put_table t tb2 (put_table t tb1 w) = put_table t tb2 w.
Proof. unfold put_table. simpl. by rewrite insert_insert_eq. Qed.

Lemma buttons_put_table t tb w : buttons (put_table t tb w) = buttons w.
Proof. reflexivity. Qed.

Lemma with_button_alive b f w bt :
  buttons w !! b = Some bt ->
  with_button b f w = Returned tt (put_button b (f bt) w).
Proof. unfold with_button. intros ->. reflexivity. Qed.

Lemma buttons_put_button b bt w :
  buttons (put_button b bt w) = <[b := bt]> (buttons w).
Proof. reflexivity. Qed.

Lemma tables_put_button b bt w : tables (put_button b bt w) = tables w.
Proof. reflexivity. Qed.

(** *** The save buttons *)

Lemma save_buttons_enable_exec da self enable f b1 b2 w :
  BaseDialog.form self = Some f ->
  buttons w !! save_new_button f = Some b1 ->
  buttons w !! save_done_button f = Some b2 ->
  exec (handle da) (BaseDialog.save_buttons_enable self enable) w =
  ([ called (setEnabled (save_new_button f) enable);
     called (setEnabled (save_done_button f) enable) ],
   Returned tt
     (put_button (save_done_button f) {| isEnabled := enable |}
        (put_button (save_new_button f) {| isEnabled := enable |} w))).
Proof.
  intros Hf H1 H2.
  unfold BaseDialog.save_buttons_enable, BaseDialog.form_attr.
  rewrite Hf. simpl. rewrite (with_button_alive _ _ _ _ H1).
  assert (H2' : exists bt,
             buttons (put_button (save_new_button f)
                        {| isEnabled := enable |} w)
             !! save_done_button f = Some bt).
  { rewrite buttons_put_button, lookup_insert.
    case_decide; eauto. }
  destruct H2' as [bt H2'].
  rewrite (with_button_alive _ _ _ _ H2'). reflexivity.
Qed.

(** *** Counts, labels and cells *)

Lemma item_set_rowCount n t r c :
  item (set_rowCount n t) !! (r, c)
  = if decide (r < n)%nat then item t !! (r, c) else None.
Proof.
  unfold set_rowCount. simpl. apply option_eq. intros x.
  rewrite map_lookup_filter_Some. simpl.
  case_decide; split; [tauto|intros; split; auto|intros [_ ?]; lia|discriminate].
Qed.

Lemma item_set_columnCount n t r c :
  item (set_columnCount n t) !! (r, c)
  = if decide (c < n)%nat then item t !! (r, c) else None.
Proof.
  unfold set_columnCount. simpl. apply option_eq. intros x.
  rewrite map_lookup_filter_Some. simpl.
  case_decide; split; [tauto|intros; split; auto|intros [_ ?]; lia|discriminate].
Qed.

Lemma set_item_frame r c it t :
  rowCount (set_item r c it t) = rowCount t
  /\ columnCount (set_item r c it t) = columnCount t
  /\ horizontalHeaderLabels (set_item r c it t) = horizontalHeaderLabels t
  /\ selectedItems (set_item r c it t) = selectedItems t.
Proof. repeat split. Qed.

Lemma item_set_item_ne r c it t r' c' :
  (r', c') ≠ (r, c) ->
  item (set_item r c it t) !! (r', c') = item t !! (r', c').
Proof.
  intros Hne. unfold set_item. simpl. case_decide; [|reflexivity].
  apply lookup_insert_ne. congruence.
Qed.

Lemma item_set_item_eq r c it t :
  (r < rowCount t)%nat -> (c < columnCount t)%nat ->
  item (set_item r c it t) !! (r, c) = Some it.
Proof.
  intros Hr Hc. unfold set_item. simpl. case_decide; [|tauto].
  apply lookup_insert_eq.
Qed.

Lemma item_set_item_out r c it t r' c' :
  ~ ((r' < rowCount t)%nat /\ (c' < columnCount t)%nat) ->
  item (set_item r c it t) !! (r', c') = item t !! (r', c').
Proof.
  intros Hout. unfold set_item. simpl. case_decide as Hin; [|reflexivity].
  apply lookup_insert_ne. intros [= -> ->]. tauto.
Qed.

(** The header that set_table_header leaves: as many columns as names,
    the names as labels, and the cells of the columns that remain. *)
Lemma with_header_columns names tb :
  columnCount (with_header names tb) = length names
  /\ horizontalHeaderLabels (with_header names tb) = names
  /\ rowCount (with_header names tb) = rowCount tb.
Proof.
  unfold with_header, set_labels, set_columnCount. simpl.
  rewrite Nat.min_id, firstn_all.
  rewrite drop_ge by (rewrite length_take; lia).
  rewrite app_nil_r. repeat split.
Qed.

Lemma item_with_header names tb r c :
  item (with_header names tb) !! (r, c)
  = if decide (c < length names)%nat then item tb !! (r, c) else None.
Proof.
  unfold with_header, set_labels. simpl. apply item_set_columnCount.
Qed.

Lemma selectedItems_with_header names tb :
  selectedItems (with_header names tb)
  = filter (fun k => (k.2 < length names)%nat) (selectedItems tb).
Proof. reflexivity. Qed.

(** *** Cells and rows put into a table *)

Lemma put_cells_frame r cells : forall c tb,
  rowCount (put_cells r c cells tb) = rowCount tb
  /\ columnCount (put_cells r c cells tb) = columnCount tb
  /\ horizontalHeaderLabels (put_cells r c cells tb)
     = horizontalHeaderLabels tb
  /\ selectedItems (put_cells r c cells tb) = selectedItems tb.
Proof.
  induction cells as [|it cells IH]; intros c tb; simpl.
  - repeat split.
  - destruct (IH (S c) (set_item r c it tb)) as (H1 & H2 & H3 & H4).
    destruct (set_item_frame r c it tb) as (G1 & G2 & G3 & G4).
    split; [exact (eq_trans H1 G1)|]. split; [exact (eq_trans H2 G2)|].
    split; [exact (eq_trans H3 G3)|exact (eq_trans H4 G4)].
Qed.

Lemma put_cells_rowCount r cells c tb :
  rowCount (put_cells r c cells tb) = rowCount tb.
Proof. apply put_cells_frame. Qed.

Lemma put_cells_item_other r cells : forall c tb r' c',
  (r' ≠ r \/ c' < c \/ c + length cells <= c')%nat ->
  item (put_cells r c cells tb) !! (r', c') = item tb !! (r', c').
Proof.
  induction cells as [|it cells IH]; intros c tb r' c' H; simpl; [reflexivity|].
  rewrite IH by (simpl in H; lia).
  apply item_set_item_ne. intros [= -> ->]. simpl in H. lia.
Qed.

Lemma put_cells_item_out r cells : forall c tb r' c',
  ~ ((r' < rowCount tb)%nat /\ (c' < columnCount tb)%nat) ->
  item (put_cells r c cells tb) !! (r', c') = item tb !! (r', c').
Proof.
  induction cells as [|it cells IH]; intros c tb r' c' H; simpl; [reflexivity|].
  destruct (set_item_frame r c it tb) as (Hr & Hc & _).
  rewrite IH by (rewrite Hr, Hc; exact H).
  apply item_set_item_out. exact H.
Qed.

Lemma put_cells_item r cells : forall c tb j it,
  cells !! j = Some it ->
  (r < rowCount tb)%nat -> (c + j < columnCount tb)%nat ->
  item (put_cells r c cells tb) !! (r, (c + j)%nat) = Some it.
Proof.
  induction cells as [|it0 cells IH]; intros c tb j it Hj Hr Hc;
    [discriminate|].
  destruct (set_item_frame r c it0 tb) as (Hr' & Hc' & _).
  destruct j as [|j]; simpl in *.
  - injection Hj as ->. rewrite put_cells_item_other by lia.
    rewrite Nat.add_0_r in *. apply item_set_item_eq; assumption.
  - rewrite <- Nat.add_succ_comm.
    apply IH;
      [exact Hj|exact Hr|change (S c + j < columnCount tb)%nat; lia].
Qed.

Lemma order_row_length o l : length (order_row o l) = 8%nat.
Proof. reflexivity. Qed.

Lemma put_rows_frame rows : forall r tb,
  rowCount (put_rows r rows tb) = rowCount tb
  /\ columnCount (put_rows r rows tb) = columnCount tb
  /\ horizontalHeaderLabels (put_rows r rows tb) = horizontalHeaderLabels tb
  /\ selectedItems (put_rows r rows tb) = selectedItems tb.
Proof.
  induction rows as [|[o l] rows IH]; intros r tb; cbn [put_rows].
  - repeat split.
  - destruct (IH (S r) (put_cells r 0 (order_row o l) tb))
      as (H1 & H2 & H3 & H4).
    destruct (put_cells_frame r (order_row o l) 0%nat tb)
      as (G1 & G2 & G3 & G4).
    split; [exact (eq_trans H1 G1)|]. split; [exact (eq_trans H2 G2)|].
    split; [exact (eq_trans H3 G3)|exact (eq_trans H4 G4)].
Qed.

Lemma put_rows_rowCount rows r tb :
  rowCount (put_rows r rows tb) = rowCount tb.
Proof. apply put_rows_frame. Qed.

Lemma put_rows_item_other rows : forall r tb r' c,
  (r' < r \/ r + length rows <= r' \/ 8 <= c)%nat ->
  item (put_rows r rows tb) !! (r', c) = item tb !! (r', c).
Proof.
  induction rows as [|[o l] rows IH]; intros r tb r' c H; cbn [put_rows];
    [reflexivity|].
  rewrite IH by (simpl in H; lia).
  apply put_cells_item_other. rewrite order_row_length. simpl in H. lia.
Qed.

Lemma put_rows_item_out rows : forall r tb r' c,
  ~ ((r' < rowCount tb)%nat /\ (c < columnCount tb)%nat) ->
  item (put_rows r rows tb) !! (r', c) = item tb !! (r', c).
Proof.
  induction rows as [|[o l] rows IH]; intros r tb r' c H; cbn [put_rows];
    [reflexivity|].
  destruct (put_cells_frame r (order_row o l) 0%nat tb) as (Hr & Hc & _).
  rewrite IH by (rewrite Hr, Hc; exact H).
  apply put_cells_item_out. exact H.
Qed.

Lemma put_rows_item rows : forall r tb i o l c it,
  rows !! i = Some (o, l) ->
  order_row o l !! c = Some it ->
  (r + i < rowCount tb)%nat -> (c < columnCount tb)%nat ->
  item (put_rows r rows tb) !! ((r + i)%nat, c) = Some it.
Proof.
  induction rows as [|[o0 l0] rows IH]; intros r tb i o l c it Hi Hc Hr Hcol;
    [discriminate|].
  destruct (put_cells_frame r (order_row o0 l0) 0%nat tb) as (Hr' & Hc' & _).
  destruct i as [|i]; simpl in Hi; cbn [put_rows].
  - injection Hi as -> ->. rewrite put_rows_item_other by lia.
    rewrite Nat.add_0_r in *.
    apply (put_cells_item r _ 0%nat tb c it Hc); [exact Hr|exact Hcol].
  - rewrite <- Nat.add_succ_comm.
    eapply IH; [eassumption|eassumption| |].
    + rewrite Hr'. lia.
    + rewrite Hc'. exact Hcol.
Qed.

(** *** The table after the rows went in *)

Lemma item_after_fill_in rows tb i o l c it :
  rows !! i = Some (o, l) ->
  order_row o l !! c = Some it ->
  (c < columnCount tb)%nat ->
  item (put_rows 0 rows (set_rowCount (length rows) tb)) !! (i, c) = Some it.
Proof.
  intros Hi Hc Hcol.
  apply (put_rows_item rows 0%nat _ i o l c it Hi Hc).
  - apply lookup_lt_Some in Hi. exact Hi.
  - exact Hcol.
Qed.

Lemma item_after_fill_beyond rows tb r c :
  (length rows <= r)%nat ->
  item (put_rows 0 rows (set_rowCount (length rows) tb)) !! (r, c) = None.
Proof.
  intros Hr. rewrite put_rows_item_other by lia.
  rewrite item_set_rowCount. case_decide; [lia|reflexivity].
Qed.

Lemma item_after_fill_kept rows tb r c :
  (r < length rows)%nat ->
  (8 <= c \/ columnCount tb <= c)%nat ->
  item (put_rows 0 rows (set_rowCount (length rows) tb)) !! (r, c)
  = item tb !! (r, c).
Proof.
  intros Hr [Hc|Hc].
  - rewrite put_rows_item_other by lia.
    rewrite item_set_rowCount. case_decide; [reflexivity|lia].
  - rewrite put_rows_item_out.
    + rewrite item_set_rowCount. case_decide; [reflexivity|lia].
    + intros [_ H]. change (c < columnCount tb)%nat in H. lia.
Qed.

(** *** What a trace of the loop shows *)

Lemma orders_looked_up_rows self t rows : forall r,
  orders_looked_up (rows_events self t r rows)
  = map (fun ol => order_number ol.2) rows.
Proof.
  induction rows as [|[o l] rows IH]; intros r; [reflexivity|].
  unfold orders_looked_up in *. cbn [rows_events].
  rewrite omap_app, IH. reflexivity.
Qed.

Lemma cells_written_rows self t rows : forall r,
  cells_written (rows_events self t r rows)
  = cells_of_rows r (length rows).
Proof.
  induction rows as [|[o l] rows IH]; intros r; [reflexivity|].
  unfold cells_written in *. cbn [rows_events length cells_of_rows].
  rewrite omap_app, IH. reflexivity.
Qed.

(** Every line whose order loads can be paired with it. *)
Lemma pair_with_orders da file (ls : list OrderLine) :
  (forall l, l ∈ ls -> exists o, load_order da file (order_number l) = inr o) ->
  exists rows, rows.*2 = ls /\ loaded da file rows.
Proof.
  induction ls as [|l ls IH]; intros H.
  - exists []. split; [reflexivity|constructor].
  - destruct (H l) as [o Ho]; [left|].
    destruct IH as (rows & Hrows & Hl); [intros l' Hl'; apply H; by right|].
    exists ((o, l) :: rows). split; [by rewrite fmap_cons, Hrows|].
    constructor; assumption.
Qed.

(** *** The header *)

Section Header.
Variable da : DataAccess.
Variable t : QTableWidgetRef.
Variable col_widths : list Z.

(** The loop over the widths, from column [i] on. *)
Lemma set_widths_exec rest : forall i tb w,
  drop i col_widths = rest ->
  exec (handle da)
    (BaseDialog.for_in (seq i (length rest))
       (fun _ i => wd ← BaseDialog.index col_widths i;
                   call (setColumnWidth t i wd)) tt)
    (put_table t tb w) =
  (width_events t i rest, Returned tt (put_table t tb w)).
Proof.
  induction rest as [|wd rest IH]; intros i tb w Hdrop; [reflexivity|].
  assert (Hi : col_widths !! i = Some wd).
  { rewrite <- (Nat.add_0_r i), <- lookup_drop, Hdrop. reflexivity. }
  assert (Hrest : drop (S i) col_widths = rest).
  { rewrite <- Nat.add_1_r, <- drop_drop, Hdrop. reflexivity. }
  cbn [length seq BaseDialog.for_in width_events].
  unfold mbind at 1, prog_bind at 1. rewrite exec_bind.
  unfold BaseDialog.index. rewrite Hi. simpl exec.
  rewrite with_table_put. unfold geometry.
  rewrite (IH (S i) _ w Hrest). reflexivity.
Qed.

Lemma set_table_header_exec self col_names stretch_column tb w :
  tables w !! t = Some tb ->
  exec (handle da)
    (BaseDialog.set_table_header self t col_names col_widths
       stretch_column) w =
  (called (setColumnCount t (length col_names))
   :: called (setHorizontalHeaderLabels t col_names)
   :: width_events t 0 col_widths ++ stretch_events t stretch_column,
   Returned tt (put_table t (with_header col_names tb) w)).
Proof.
  intros Htb. unfold BaseDialog.set_table_header.
  unfold mbind, prog_bind. simpl.
  rewrite (with_table_alive _ _ _ _ Htb), with_table_put.
  rewrite exec_bind.
  pose proof (set_widths_exec col_widths 0%nat) as Hw.
  unfold mbind, prog_bind in Hw. rewrite Hw by reflexivity. clear Hw.
  fold (with_header col_names tb).
  destruct stretch_column as [c|]; simpl.
  - rewrite lookup_insert_eq. simpl. rewrite with_table_put. reflexivity.
  - rewrite app_nil_r. reflexivity.
Qed.

End Header.

Section Fill.
Variable da : DataAccess.
Variable self : BaseDialog.t.
Variable t : QTableWidgetRef.

(** One pass of the loop. *)
Lemma fill_row_exec r l o tb w :
  load_order da
      (dlg_datafile (BaseDialog.base self)) (order_number l) = inr o ->
  exec (handle da) (BaseDialog.fill_row self t r l) (put_table t tb w) =
  (row_events self t r o l,
   Returned (r + 1)%nat (put_table t (put_cells r 0 (order_row o l) tb) w)).
Proof.
  intros Hload. unfold BaseDialog.fill_row, BaseDialog.get_parts_file.
  unfold get_order_number, get_date, get_source, get_line,
    get_part_number, get_cost_each, get_quantity, get_remarks, float.
  simpl. rewrite Hload. unfold of_sum. simpl.
  repeat (rewrite with_table_put; simpl).
  reflexivity.
Qed.

(** The whole loop. *)
Lemma fill_rows_exec rows : forall r tb w,
  loaded da (dlg_datafile (BaseDialog.base self)) rows ->
  exec (handle da) (BaseDialog.for_in rows.*2 (BaseDialog.fill_row self t) r)
    (put_table t tb w) =
  (rows_events self t r rows,
   Returned (r + length rows)%nat
     (put_table t (put_rows r rows tb) w)).
Proof.
  induction rows as [|[o l] rows IH]; intros r tb w Hl.
  - simpl. rewrite Nat.add_0_r. reflexivity.
  - apply Forall_cons in Hl as [Ho Hl]. simpl in Ho.
    cbn [fmap list_fmap snd BaseDialog.for_in rows_events put_rows].
    change (exec (handle da)
              (bind (BaseDialog.fill_row self t r l)
                 (fun s' => BaseDialog.for_in rows.*2
                              (BaseDialog.fill_row self t) s'))
              (put_table t tb w) = 
            (row_events self t r o l ++ rows_events self t (S r) rows,
             Returned (r + length ((o, l) :: rows))%nat
               (put_table t
                  (put_rows (S r) rows (put_cells r 0 (order_row o l) tb))
                  w))).
    rewrite exec_bind, (fill_row_exec r l o tb w Ho).
    rewrite Nat.add_1_r, (IH (S r) _ w Hl).
    simpl length. rewrite Nat.add_succ_r. reflexivity.
Qed.

(** The whole method. *)
Lemma fill_order_table_fields_exec f pn ls rows tb w :
  BaseDialog.form self = Some f ->
  order_table f = t ->
  tables w !! t = Some tb ->
  query_order_lines da
      (dlg_datafile (BaseDialog.base self)) "part_number" pn "order_number" = inr ls ->
  rows.*2 = lines_shown pn ls ->
  loaded da (dlg_datafile (BaseDialog.base self)) rows ->
  exec (handle da) (BaseDialog.fill_order_table_fields self pn) w =
  (called (Dialog_get_datafile (BaseDialog.base self))
   :: called (OrderLineSet_new
       (dlg_datafile (BaseDialog.base self)) "part_number" pn "order_number")
   :: called (setRowCount t (length rows))
   :: rows_events self t 0 rows,
   Returned tt
     (put_table t (put_rows 0 rows (set_rowCount (length rows) tb)) w)).
Proof.
  intros Hf Ht Htb Hq Hrows Hl.
  unfold BaseDialog.fill_order_table_fields, BaseDialog.get_parts_file,
    BaseDialog.form_attr.
  rewrite Hf. simpl. rewrite Hq, Ht. unfold of_sum. simpl.
  assert (Hls : property_set
            (if negb (truthy pn)
             then set_property_set {| property_set := ls |} []
             else {| property_set := ls |}) = rows.*2).
  { rewrite Hrows. unfold lines_shown. destruct (truthy pn); reflexivity. }
  unfold get_number_elements. rewrite Hls, length_fmap.
  rewrite (with_table_alive _ _ _ _ Htb).
  unfold mbind, prog_bind.
  rewrite exec_bind, (fill_rows_exec rows 0%nat _ w Hl).
  simpl. rewrite app_nil_r. reflexivity.
Qed.

(** The whole method, from what the libraries give it. *)
Lemma fill_order_table_fields_result f pn ls tb w :
  BaseDialog.form self = Some f ->
  order_table f = t ->
  tables w !! t = Some tb ->
  query_order_lines da
      (dlg_datafile (BaseDialog.base self)) "part_number" pn "order_number" = inr ls ->
  (forall l, l ∈ lines_shown pn ls ->
             exists o, load_order da
                 (dlg_datafile (BaseDialog.base self)) (order_number l) = inr o) ->
  exists rows,
    rows.*2 = lines_shown pn ls /\ loaded da
        (dlg_datafile (BaseDialog.base self)) rows /\
    exec (handle da) (BaseDialog.fill_order_table_fields self pn) w =
    (called (Dialog_get_datafile (BaseDialog.base self))
     :: called (OrderLineSet_new
         (dlg_datafile (BaseDialog.base self)) "part_number" pn "order_number")
     :: called (setRowCount t (length rows))
     :: rows_events self t 0 rows,
     Returned tt
       (put_table t (put_rows 0 rows (set_rowCount (length rows) tb)) w)).
Proof.
  intros Hf Ht Htb Hq Hload.
  destruct (pair_with_orders da
      (dlg_datafile (BaseDialog.base self)) _ Hload) as (rows & Hrows & Hl).
  exists rows. split; [exact Hrows|]. split; [exact Hl|].
  eapply fill_order_table_fields_exec; eassumption.
Qed.

(** The cells that the method leaves in the table. *)
Lemma fill_order_table_fields_cells f pn ls tb w :
  BaseDialog.form self = Some f ->
  order_table f = t ->
  tables w !! t = Some tb ->
  query_order_lines da
      (dlg_datafile (BaseDialog.base self)) "part_number" pn "order_number"
    = inr ls ->
  (forall l, l ∈ lines_shown pn ls ->
             exists o, load_order da
                 (dlg_datafile (BaseDialog.base self)) (order_number l)
               = inr o) ->
  exists w' tb',
    run (handle da) (BaseDialog.fill_order_table_fields self pn) w
      = Returned tt w'
    /\ tables w' !! t = Some tb'
    /\ forall i l, lines_shown pn ls !! i = Some l ->
         exists o,
           load_order da
               (dlg_datafile (BaseDialog.base self)) (order_number l) = inr o
           /\ forall c it, order_row o l !! c = Some it ->
                           (c < columnCount tb)%nat ->
                           item tb' !! (i, c) = Some it.
Proof.
  intros Hf Ht Htb Hq Hload.
  destruct (fill_order_table_fields_result f pn ls tb w Hf Ht Htb Hq Hload)
    as (rows & Hrows & Hl & Hexec).
  unfold run. rewrite Hexec. cbn [snd].
  eexists _, _. split; [reflexivity|]. split; [apply tables_put_table|].
  intros i l Hi. rewrite <- Hrows, list_lookup_fmap in Hi.
  destruct (rows !! i) as [[o l']|] eqn:Hri; [|discriminate].
  injection Hi as <-. exists o. split.
  - exact (proj1 (Forall_lookup _ _) Hl i (o, l') Hri).
  - intros c it Hc Hcol.
    exact (item_after_fill_in rows tb i o l' c it Hri Hc Hcol).
Qed.

End Fill.

End ReferenceFacts.

(** ** The specification *)

Module Spec.
Import Py Elements Qt Effect Reference Expected Behaviour.
Import EffectFacts PyFacts ReferenceFacts.

(** *** The column layout *)

(** C6. The constant PART_ORDER_COL_NAMES is the list Order, Date, Source,
    Line, Part Number, Cost Each, Quantity, Remarks, in that order, and
    PART_ORDER_COL_WIDTHS has the same length, eight: one width per
    name. *)
Theorem part_order_columns :
  BaseDialog.PART_ORDER_COL_NAMES =
    [ "Order"; "Date"; "Source"; "Line"; "Part Number"; "Cost Each";
      "Quantity"; "Remarks" ]
  /\ length BaseDialog.PART_ORDER_COL_WIDTHS = 8%nat
  /\ length BaseDialog.PART_ORDER_COL_NAMES
     = length BaseDialog.PART_ORDER_COL_WIDTHS.
Proof. repeat split. Qed.

(** *** get_parts_file *)

(** C9. Whatever the libraries do and whatever the state, get_parts_file
    ends exactly as the inherited Dialog.get_datafile does (same value or
    same exception, same state), and that call is the only one it
    makes. *)
Theorem get_parts_file_is_get_datafile (h : handler) self w :
  run h (BaseDialog.get_parts_file self) w
    = h _ (Dialog_get_datafile (BaseDialog.base self)) w
  /\ map ev_call (trace h (BaseDialog.get_parts_file self) w)
     = [ existT _ (Dialog_get_datafile (BaseDialog.base self)) ].
Proof.
  unfold run, trace, BaseDialog.get_parts_file. simpl.
  destruct (h _ (Dialog_get_datafile (BaseDialog.base self)) w);
    split; reflexivity.
Qed.

(** *** set_table_header *)

(** C3. For every list col_names (and every col_widths and
    stretch_column), set_table_header on a live table returns and leaves
    the table with a column count equal to the length of col_names and
    with col_names as its horizontal header labels: the column count
    matches the number of header names. *)
Theorem set_table_header_columns da self table (col_names : list string)
    (col_widths : list Z) (stretch_column : option Z) tb w :
  tables w !! table = Some tb ->
  exists w' tb',
    run (handle da)
      (BaseDialog.set_table_header self table col_names col_widths
         stretch_column) w = Returned tt w'
    /\ tables w' !! table = Some tb'
    /\ columnCount tb' = length col_names
    /\ horizontalHeaderLabels tb' = col_names
    /\ columnCount tb' = length (horizontalHeaderLabels tb').
Proof.
  intros Htb. unfold run.
  rewrite (set_table_header_exec da table col_widths self col_names
             stretch_column tb w Htb).
  destruct (with_header_columns col_names tb) as (Hc & Hl & _).
  eexists _, _. split; [reflexivity|]. split; [apply tables_put_table|].
  split; [exact Hc|]. split; [exact Hl|].
  rewrite Hc, Hl. reflexivity.
Qed.

Lemma set_table_header_columns_witness :
  exists w' tb',
    run (handle Sample.db)
      (BaseDialog.set_table_header Sample.dialog 0%nat
         BaseDialog.PART_ORDER_COL_NAMES BaseDialog.PART_ORDER_COL_WIDTHS
         (Some 7)) Sample.world = Returned tt w'
    /\ tables w' !! 0%nat = Some tb'
    /\ columnCount tb' = 8%nat
    /\ horizontalHeaderLabels tb' = BaseDialog.PART_ORDER_COL_NAMES.
Proof.
  destruct (set_table_header_columns Sample.db Sample.dialog 0%nat
              BaseDialog.PART_ORDER_COL_NAMES
              BaseDialog.PART_ORDER_COL_WIDTHS (Some 7)
              Sample.empty_table Sample.world)
    as (w' & tb' & Hrun & Htb & Hc & Hl & _); [reflexivity|].
  exists w', tb'. repeat split; assumption.
Defined.

(** C10, as amended.  Whatever the toolkit does, set_table_header calls
    nothing but setColumnCount and setHorizontalHeaderLabels on the table,
    setColumnWidth on its first len(col_widths) columns and, only when
    stretch_column is not None, horizontalHeader and setSectionResizeMode
    with that one column and Stretch (no resize mode is touched when
    stretch_column is None).  On a live table, with widths and stretch
    column that fit a C int, it makes exactly these calls, once each and in
    this order, and returns; afterwards every other table and every button
    is as before, the row count is as before, and every cell and every
    selected cell in a column that remains (a column below len(col_names))
    is as before.  The cells and the selection of the columns from
    len(col_names) on are gone: setColumnCount discards them. *)
Theorem set_table_header_frame da self table (col_names : list string)
    (col_widths : list Z) (stretch_column : option Z) tb w :
  (forall (h : handler) w0,
     Forall
       (fun ev =>
          header_call table (length col_widths) stretch_column (ev_call ev))
       (trace h
          (BaseDialog.set_table_header self table col_names col_widths
             stretch_column) w0))
  /\ (tables w !! table = Some tb ->
      Forall c_int col_widths ->
      (forall c, stretch_column = Some c -> c_int c) ->
      exists w' tb',
        run (handle da)
          (BaseDialog.set_table_header self table col_names col_widths
             stretch_column) w = Returned tt w'
        /\ trace (handle da)
             (BaseDialog.set_table_header self table col_names col_widths
                stretch_column) w
           = called (setColumnCount table (length col_names))
             :: called (setHorizontalHeaderLabels table col_names)
             :: width_events table 0 col_widths
                ++ stretch_events table stretch_column
        /\ tables w' !! table = Some tb'
        /\ (forall t', t' ≠ table -> tables w' !! t' = tables w !! t')
        /\ buttons w' = buttons w
        /\ rowCount tb' = rowCount tb
        /\ (forall r c, (c < length col_names)%nat ->
                        item tb' !! (r, c) = item tb !! (r, c))
        /\ (forall r c, (length col_names <= c)%nat ->
                        item tb' !! (r, c) = None)
        /\ selectedItems tb'
           = filter (fun k => (k.2 < length col_names)%nat)
               (selectedItems tb)).
Proof.
  split.
  { intros h w0. apply all_calls_trace, set_table_header_calls. }
  intros Htb _ _. unfold run, trace.
  rewrite (set_table_header_exec da table col_widths self col_names
             stretch_column tb w Htb).
  destruct (with_header_columns col_names tb) as (_ & _ & Hr).
  eexists _, _. split; [reflexivity|]. split; [reflexivity|].
  split; [apply tables_put_table|].
  split; [intros t' Hne; apply tables_put_table_ne; congruence|].
  split; [reflexivity|]. split; [exact Hr|].
  split; [|split; [|reflexivity]].
  - intros r c Hc. rewrite item_with_header. case_decide; [reflexivity|lia].
  - intros r c Hc. rewrite item_with_header. case_decide; [lia|reflexivity].
Qed.

Lemma set_table_header_frame_witness :
  exists w' tb',
    run (handle Sample.db)
      (BaseDialog.set_table_header Sample.dialog 0%nat
         ["Order"; "Date"] [60; 100] None) Sample.used_world = Returned tt w'
    /\ tables w' !! 0%nat = Some tb'
    /\ buttons w' = buttons Sample.used_world
    /\ rowCount tb' = 3%nat
    /\ item tb' !! (2%nat, 0%nat) = Some Sample.stale.
Proof.
  destruct (proj2 (set_table_header_frame Sample.db Sample.dialog 0%nat
                     ["Order"; "Date"] [60; 100] None
                     Sample.used_table Sample.used_world))
    as (w' & tb' & Hrun & _ & Htb & _ & Hb & Hr & Hkept & _).
  - reflexivity.
  - repeat constructor; unfold c_int; lia.
  - discriminate.
  - exists w', tb'. split; [exact Hrun|]. split; [exact Htb|].
    split; [exact Hb|]. split; [exact Hr|].
    rewrite (Hkept 2%nat 0%nat) by (simpl; lia). reflexivity.
Defined.

(** C10 as stated fails when the column count shrinks: a table of eight
    columns holds a cell in column 5; after set_table_header with two
    names the cell is gone. *)
Lemma set_table_header_frame_counterexample :
  item Sample.used_table !! (0%nat, 5%nat) = Some Sample.stale
  /\ exists w' tb',
       run (handle Sample.db)
         (BaseDialog.set_table_header Sample.dialog 0%nat
            ["Order"; "Date"] [60; 100] None) Sample.used_world
         = Returned tt w'
       /\ tables w' !! 0%nat = Some tb'
       /\ item tb' !! (0%nat, 5%nat) = None.
Proof.
  split; [reflexivity|]. unfold run.
  rewrite (set_table_header_exec Sample.db 0%nat [60; 100] Sample.dialog
             ["Order"; "Date"] None Sample.used_table Sample.used_world
             eq_refl).
  eexists _, _. split; [reflexivity|]. split; [apply tables_put_table|].
  rewrite item_with_header. reflexivity.
Qed.

(** *** A dialog whose form is not built

    After [__init__] the form is [None]: the two methods that reach
    through it raise AttributeError, fill_order_table_fields only after
    it has made the query. *)

Example save_buttons_enable_without_form :
  exec (handle Sample.db) (BaseDialog.save_buttons_enable Sample.fresh true)
    Sample.world
  = ([], Raised
           (AttributeError
              "'NoneType' object has no attribute 'save_new_button'")
           Sample.world).
Proof. reflexivity. Qed.

Example fill_order_table_fields_without_form :
  exec (handle Sample.db)
    (BaseDialog.fill_order_table_fields Sample.fresh "BTB1108") Sample.world
  = ([ called (Dialog_get_datafile (BaseDialog.base Sample.fresh));
       called (OrderLineSet_new Sample.file "part_number" "BTB1108"
                 "order_number") ],
     Raised
       (AttributeError "'NoneType' object has no attribute 'order_table'")
       Sample.world).
Proof. reflexivity. Qed.

(** *** save_buttons_enable *)

(** C7. For either value of enable, on a dialog whose form is built and
    whose two save buttons exist, save_buttons_enable(enable) returns and
    leaves the enabled state of both save_new_button and save_done_button
    equal to enable: both are enabled exactly when enable is true.  It
    makes the two setEnabled calls and touches nothing else. *)
Theorem save_buttons_enable_sets_both da self (enable : bool) f b1 b2 w :
  BaseDialog.form self = Some f ->
  buttons w !! save_new_button f = Some b1 ->
  buttons w !! save_done_button f = Some b2 ->
  exists w',
    run (handle da) (BaseDialog.save_buttons_enable self enable) w
      = Returned tt w'
    /\ isEnabled <$> buttons w' !! save_new_button f = Some enable
    /\ isEnabled <$> buttons w' !! save_done_button f = Some enable
    /\ (forall b, b ≠ save_new_button f -> b ≠ save_done_button f ->
                  buttons w' !! b = buttons w !! b)
    /\ tables w' = tables w
    /\ trace (handle da) (BaseDialog.save_buttons_enable self enable) w
       = [ called (setEnabled (save_new_button f) enable);
           called (setEnabled (save_done_button f) enable) ].
Proof.
  intros Hf H1 H2. unfold run, trace.
  rewrite (save_buttons_enable_exec da self enable f b1 b2 w Hf H1 H2).
  eexists. split; [reflexivity|]. simpl.
  split; [|split; [|split; [|split; reflexivity]]].
  - rewrite lookup_insert. case_decide as Heq.
    + reflexivity.
    + rewrite lookup_insert_eq. reflexivity.
  - rewrite lookup_insert_eq. reflexivity.
  - intros b Hb1 Hb2. rewrite !lookup_insert_ne by congruence. reflexivity.
Qed.

Lemma save_buttons_enable_sets_both_witness :
  exists w',
    run (handle Sample.db)
      (BaseDialog.save_buttons_enable Sample.dialog false) Sample.world
      = Returned tt w'
    /\ isEnabled <$> buttons w' !! 1%nat = Some false
    /\ isEnabled <$> buttons w' !! 2%nat = Some false.
Proof.
  destruct (save_buttons_enable_sets_both Sample.db Sample.dialog false
              Sample.the_form {| isEnabled := true |}
              {| isEnabled := false |} Sample.world)
    as (w' & Hrun & Hnew & Hdone & _); [reflexivity..|].
  exists w'. split; [exact Hrun|]. split; [exact Hnew|exact Hdone].
Defined.

(** *** fill_order_table_fields *)

Lemma truthy_true s : truthy s = true <-> s ≠ "".
Proof. destruct s; simpl; split; congruence. Qed.

Lemma lines_shown_nonempty pn ls : pn ≠ "" -> lines_shown pn ls = ls.
Proof. intros H. apply truthy_true in H. unfold lines_shown. by rewrite H. Qed.

(** C1, as amended.  For every non-empty part_number, on a dialog whose
    form is built and whose order table exists, when the OrderLineSet
    query returns the lines ls and the order of each line loads,
    fill_order_table_fields returns and leaves the row count of the
    order table equal to the number of lines in ls; row i, for i from 0
    to n-1, holds the eight cells of the i-th line of ls (each in its
    column, for the columns that the table has), and no row from n on
    holds a cell.  The loop is one pass in query order: the orders are
    looked up once per line, in the order of ls, and the cells are
    written row by row, each once. *)
Theorem fill_order_table_rows da self f tb w (part_number : string) ls :
  part_number ≠ "" ->
  BaseDialog.form self = Some f ->
  tables w !! order_table f = Some tb ->
  query_order_lines da (dlg_datafile (BaseDialog.base self))
    "part_number" part_number "order_number" = inr ls ->
  (forall l, l ∈ ls ->
     exists o, load_order da (dlg_datafile (BaseDialog.base self))
                 (order_number l) = inr o) ->
  exists w' tb',
    run (handle da) (BaseDialog.fill_order_table_fields self part_number) w
      = Returned tt w'
    /\ tables w' !! order_table f = Some tb'
    /\ rowCount tb' = length ls
    /\ (forall i l, ls !! i = Some l ->
          exists o,
            load_order da (dlg_datafile (BaseDialog.base self))
              (order_number l) = inr o
            /\ forall c it, order_row o l !! c = Some it ->
                            (c < columnCount tb)%nat ->
                            item tb' !! (i, c) = Some it)
    /\ (forall r c, (length ls <= r)%nat -> item tb' !! (r, c) = None)
    /\ orders_looked_up
         (trace (handle da)
            (BaseDialog.fill_order_table_fields self part_number) w)
       = map order_number ls
    /\ cells_written
         (trace (handle da)
            (BaseDialog.fill_order_table_fields self part_number) w)
       = cells_of_rows 0 (length ls).
Proof.
  intros Hpn Hf Htb Hq Hload.
  destruct (fill_order_table_fields_result da self (order_table f) f
              part_number ls tb w Hf eq_refl Htb Hq)
    as (rows & Hrows & Hl & Hexec).
  { rewrite lines_shown_nonempty by exact Hpn. exact Hload. }
  rewrite lines_shown_nonempty in Hrows by exact Hpn.
  unfold run, trace. rewrite Hexec. cbn [fst snd].
  assert (Hlen : length rows = length ls)
    by (rewrite <- Hrows; symmetry; apply length_fmap).
  eexists _, _. split; [reflexivity|]. split; [apply tables_put_table|].
  split; [rewrite put_rows_rowCount; exact Hlen|].
  split; [|split; [|split]].
  - intros i l Hi. rewrite <- Hrows, list_lookup_fmap in Hi.
    destruct (rows !! i) as [[o l']|] eqn:Hri; [|discriminate].
    injection Hi as <-. exists o. split.
    + exact (proj1 (Forall_lookup _ _) Hl i (o, l') Hri).
    + intros c it Hc Hcol.
      exact (item_after_fill_in rows tb i o l' c it Hri Hc Hcol).
  - intros r c Hr. apply item_after_fill_beyond. lia.
  - cbn [orders_looked_up omap list_omap order_looked_up called ev_call
           projT2].
    fold (orders_looked_up (rows_events self (order_table f) 0 rows)).
    rewrite orders_looked_up_rows, <- Hrows.
    rewrite <- list_fmap_compose. reflexivity.
  - cbn [cells_written omap list_omap cell_written called ev_call projT2].
    fold (cells_written (rows_events self (order_table f) 0 rows)).
    rewrite cells_written_rows, Hlen. reflexivity.
Qed.

Lemma fill_order_table_rows_witness :
  exists w' tb',
    run (handle Sample.db)
      (BaseDialog.fill_order_table_fields Sample.dialog "BTB1108")
      Sample.used_world = Returned tt w'
    /\ tables w' !! 0%nat = Some tb'
    /\ rowCount tb' = 2%nat
    /\ item tb' !! (1%nat, 4%nat) = Some (plain "BTB1108")
    /\ item tb' !! (2%nat, 0%nat) = None.
Proof.
  destruct (fill_order_table_rows Sample.db Sample.dialog Sample.the_form
              Sample.used_table Sample.used_world "BTB1108"
              [Sample.line1; Sample.line2])
    as (w' & tb' & Hrun & Htb & Hrows & Hcells & Hnone & _).
  - discriminate.
  - reflexivity.
  - reflexivity.
  - reflexivity.
  - intros l _. eexists. reflexivity.
  - destruct (Hcells 1%nat Sample.line2 eq_refl) as (o & Ho & Hrow).
    injection Ho as <-.
    exists w', tb'. split; [exact Hrun|]. split; [exact Htb|].
    split; [exact Hrows|]. split.
    + apply (Hrow 4%nat); [reflexivity|simpl; lia].
    + apply Hnone. simpl. lia.
Defined.

(** C1 as stated fails for the empty part number: the query returns one
    line (the sample file holds a line whose part number is empty), and
    the row count is set to 0. *)
Lemma fill_order_table_rows_counterexample :
  query_order_lines Sample.db
    (dlg_datafile (BaseDialog.base Sample.dialog))
    "part_number" "" "order_number" = inr [Sample.line3]
  /\ exists w' tb',
       run (handle Sample.db)
         (BaseDialog.fill_order_table_fields Sample.dialog "")
         Sample.world = Returned tt w'
       /\ tables w' !! 0%nat = Some tb'
       /\ rowCount tb' = 0%nat
       /\ rowCount tb' ≠ length [Sample.line3].
Proof.
  split; [reflexivity|].
  destruct (fill_order_table_fields_result Sample.db Sample.dialog 0%nat
              Sample.the_form "" [Sample.line3] Sample.empty_table
              Sample.world)
    as (rows & Hrows & _ & Hexec); try reflexivity.
  { intros l Hl. eexists. reflexivity. }
  apply fmap_nil_inv in Hrows. subst rows.
  unfold run. rewrite Hexec.
  eexists _, _. split; [reflexivity|]. split; [apply tables_put_table|].
  split; [reflexivity|]. discriminate.
Qed.

(** C2, as amended.  For every order line that fill_order_table_fields
    goes through, on an order table that has the eight columns, row i of
    the table (i the position of the line) holds in columns 0 to 7 the
    order number of the line, the date and the source of its order,
    str() of the line number, the part number, format(float(cost each),
    ".2f"), str() of the quantity, and the remarks; each is the text that
    belongs under the name that PART_ORDER_COL_NAMES gives the column.
    str() writes the decimal numeral: reading it back gives the number.
    For a finite cost the text is the sign, the whole part and two digits
    of the number of hundredths nearest to the cost: exactly two decimal
    places.  (An infinite cost or a NaN is shown as inf or nan.) *)
Theorem fill_order_table_row_contents da self f tb w
    (part_number : string) ls :
  BaseDialog.form self = Some f ->
  tables w !! order_table f = Some tb ->
  (8 <= columnCount tb)%nat ->
  query_order_lines da (dlg_datafile (BaseDialog.base self))
    "part_number" part_number "order_number" = inr ls ->
  (forall l, l ∈ lines_shown part_number ls ->
     exists o, load_order da (dlg_datafile (BaseDialog.base self))
                 (order_number l) = inr o) ->
  exists w' tb',
    run (handle da) (BaseDialog.fill_order_table_fields self part_number) w
      = Returned tt w'
    /\ tables w' !! order_table f = Some tb'
    /\ forall (i : nat) l, lines_shown part_number ls !! i = Some l ->
         exists o,
           load_order da (dlg_datafile (BaseDialog.base self))
             (get_order_number l) = inr o
           /\ text <$> item tb' !! (i, 0%nat) = Some (get_order_number l)
           /\ text <$> item tb' !! (i, 1%nat) = Some (get_date o)
           /\ text <$> item tb' !! (i, 2%nat) = Some (get_source o)
           /\ text <$> item tb' !! (i, 3%nat) = Some (str (get_line l))
           /\ text <$> item tb' !! (i, 4%nat) = Some (get_part_number l)
           /\ text <$> item tb' !! (i, 5%nat)
              = Some (format_2f (float (get_cost_each l)))
           /\ text <$> item tb' !! (i, 6%nat) = Some (str (get_quantity l))
           /\ text <$> item tb' !! (i, 7%nat) = Some (get_remarks l)
           /\ int_of_str (str (get_line l)) = Some (get_line l)
           /\ int_of_str (str (get_quantity l)) = Some (get_quantity l)
           /\ (is_finite (get_cost_each l) = true ->
               two_decimals (format_2f (float (get_cost_each l))))
           /\ (forall neg m e, get_cost_each l = Finite neg m e ->
                 format_2f (float (get_cost_each l))
                 = sign_prefix neg +:+ str (hundredths m e / 100) +:+ "."
                   +:+ two_digits (hundredths m e mod 100)
                 /\ 0 <= hundredths m e
                 /\ (0 <= e -> hundredths m e = Z.of_N m * 2 ^ e * 100)
                 /\ (e < 0 ->
                     2 * rounding_error m e (hundredths m e) <= 2 ^ (- e)))
           /\ (forall c name,
                 BaseDialog.PART_ORDER_COL_NAMES !! c = Some name ->
                 text <$> item tb' !! (i, c) = column_text name o l).
Proof.
  intros Hf Htb Hcols Hq Hload.
  destruct (fill_order_table_fields_cells da self (order_table f) f
              part_number ls tb w Hf eq_refl Htb Hq Hload)
    as (w' & tb' & Hrun & Htb' & Hcells).
  exists w', tb'. split; [exact Hrun|]. split; [exact Htb'|].
  intros i l Hi. destruct (Hcells i l Hi) as (o & Ho & Hrow).
  exists o. split; [exact Ho|].
  assert (Hcol : forall c it, order_row o l !! c = Some it ->
                   text <$> item tb' !! (i, c) = Some (text it)).
  { intros c it Hc. rewrite (Hrow c it Hc); [reflexivity|].
    apply lookup_lt_Some in Hc. rewrite order_row_length in Hc. lia. }
  split; [exact (Hcol 0%nat _ eq_refl)|].
  split; [exact (Hcol 1%nat _ eq_refl)|].
  split; [exact (Hcol 2%nat _ eq_refl)|].
  split; [exact (Hcol 3%nat _ eq_refl)|].
  split; [exact (Hcol 4%nat _ eq_refl)|].
  split; [exact (Hcol 5%nat _ eq_refl)|].
  split; [exact (Hcol 6%nat _ eq_refl)|].
  split; [exact (Hcol 7%nat _ eq_refl)|].
  split; [apply int_of_str_str|]. split; [apply int_of_str_str|].
  split; [apply format_2f_two_decimals|].
  split.
  - intros neg m e Hcost. rewrite Hcost.
    split; [reflexivity|]. unfold hundredths, rounding_error.
    destruct (Z.leb_spec 0 e) as [He|He].
    + split; [|split; [reflexivity|lia]].
      pose proof (Z.pow_nonneg 2 e ltac:(lia)). nia.
    + assert (Hden : 0 < 2 ^ (- e)) by (apply Z.pow_pos_nonneg; lia).
      destruct (round_half_even_nearest (Z.of_N m * 100) (2 ^ (- e))
                  ltac:(lia) Hden) as (H0 & Hle & _).
      split; [exact H0|]. split; [lia|]. intros _. exact Hle.
  - intros c name Hc.
    do 8 (destruct c as [|c];
          [injection Hc as <-;
           match goal with
           | |- text <$> item tb' !! (i, ?c) = _ => exact (Hcol c _ eq_refl)
           end|]).
    discriminate.
Qed.

Lemma fill_order_table_row_contents_witness :
  exists w' tb',
    run (handle Sample.db)
      (BaseDialog.fill_order_table_fields Sample.dialog "BTB1108")
      Sample.used_world = Returned tt w'
    /\ tables w' !! 0%nat = Some tb'
    /\ text <$> item tb' !! (0%nat, 3%nat) = Some "2"
    /\ text <$> item tb' !! (0%nat, 5%nat) = Some "12.50"
    /\ text <$> item tb' !! (0%nat, 6%nat) = Some "4"
    /\ text <$> item tb' !! (1%nat, 0%nat) = Some "07-013"
    /\ text <$> item tb' !! (1%nat, 1%nat) = Some "03/02/2007"
    /\ text <$> item tb' !! (1%nat, 3%nat) = Some "1"
    /\ text <$> item tb' !! (1%nat, 5%nat) = Some "0.38"
    /\ text <$> item tb' !! (1%nat, 6%nat) = Some "10".
Proof.
  destruct (fill_order_table_row_contents Sample.db Sample.dialog
              Sample.the_form Sample.used_table Sample.used_world "BTB1108"
              [Sample.line1; Sample.line2])
    as (w' & tb' & Hrun & Htb & Hrows).
  - reflexivity.
  - reflexivity.
  - simpl. lia.
  - reflexivity.
  - intros l _. eexists. reflexivity.
  - destruct (Hrows 0%nat Sample.line1 eq_refl)
      as (o1 & Ho1 & _ & _ & _ & A3 & _ & A5 & A6 & _).
    destruct (Hrows 1%nat Sample.line2 eq_refl)
      as (o2 & Ho2 & B0 & B1 & _ & B3 & _ & B5 & B6 & _).
    injection Ho2 as <-.
    exists w', tb'. repeat split; assumption.
Defined.

(** C2 as stated fails for a cost that is not finite: the line of part
    GHF331 costs inf, and its Cost Each cell reads inf, with no decimal
    place. *)
Lemma fill_order_table_row_contents_counterexample :
  exists w' tb',
    run (handle Sample.db)
      (BaseDialog.fill_order_table_fields Sample.dialog "GHF331")
      Sample.used_world = Returned tt w'
    /\ tables w' !! 0%nat = Some tb'
    /\ text <$> item tb' !! (0%nat, 5%nat) = Some "inf"
    /\ ~ two_decimals "inf".
Proof.
  destruct (fill_order_table_fields_cells Sample.db Sample.dialog 0%nat
              Sample.the_form "GHF331" [Sample.line4] Sample.used_table
              Sample.used_world)
    as (w' & tb' & Hrun & Htb & Hcells); try reflexivity.
  { intros l _. eexists. reflexivity. }
  destruct (Hcells 0%nat Sample.line4 eq_refl) as (o & _ & Hrow).
  exists w', tb'. split; [exact Hrun|]. split; [exact Htb|]. split.
  - rewrite (Hrow 5%nat _ eq_refl) by (simpl; lia). reflexivity.
  - intros (whole & d1 & d2 & H & _).
    destruct whole as [|a [|b [|c [|d whole]]]]; discriminate H.
Qed.

(** C4. In every row that fill_order_table_fields writes, on an order
    table that has the eight columns, the Cost Each cell (column 5) is
    right-aligned, the Order, Date, Line and Quantity cells (columns 0, 1,
    3 and 6) are horizontally centred, and all five are vertically
    centred. *)
Theorem fill_order_table_alignment da self f tb w
    (part_number : string) ls :
  BaseDialog.form self = Some f ->
  tables w !! order_table f = Some tb ->
  (8 <= columnCount tb)%nat ->
  query_order_lines da (dlg_datafile (BaseDialog.base self))
    "part_number" part_number "order_number" = inr ls ->
  (forall l, l ∈ lines_shown part_number ls ->
     exists o, load_order da (dlg_datafile (BaseDialog.base self))
                 (order_number l) = inr o) ->
  exists w' tb',
    run (handle da) (BaseDialog.fill_order_table_fields self part_number) w
      = Returned tt w'
    /\ tables w' !! order_table f = Some tb'
    /\ forall (i : nat) l, lines_shown part_number ls !! i = Some l ->
         aligned AlignRight AlignVCenter (item tb' !! (i, 5%nat))
         /\ aligned AlignHCenter AlignVCenter (item tb' !! (i, 0%nat))
         /\ aligned AlignHCenter AlignVCenter (item tb' !! (i, 1%nat))
         /\ aligned AlignHCenter AlignVCenter (item tb' !! (i, 3%nat))
         /\ aligned AlignHCenter AlignVCenter (item tb' !! (i, 6%nat)).
Proof.
  intros Hf Htb Hcols Hq Hload.
  destruct (fill_order_table_fields_cells da self (order_table f) f
              part_number ls tb w Hf eq_refl Htb Hq Hload)
    as (w' & tb' & Hrun & Htb' & Hcells).
  exists w', tb'. split; [exact Hrun|]. split; [exact Htb'|].
  intros i l Hi. destruct (Hcells i l Hi) as (o & _ & Hrow).
  repeat split; eexists;
    (split; [apply Hrow; [reflexivity|lia]|]); split; reflexivity.
Qed.

Lemma fill_order_table_alignment_witness :
  exists w' tb',
    run (handle Sample.db)
      (BaseDialog.fill_order_table_fields Sample.dialog "BTB1108")
      Sample.used_world = Returned tt w'
    /\ tables w' !! 0%nat = Some tb'
    /\ aligned AlignRight AlignVCenter (item tb' !! (0%nat, 5%nat))
    /\ aligned AlignHCenter AlignVCenter (item tb' !! (0%nat, 6%nat)).
Proof.
  destruct (fill_order_table_alignment Sample.db Sample.dialog
              Sample.the_form Sample.used_table Sample.used_world "BTB1108"
              [Sample.line1; Sample.line2])
    as (w' & tb' & Hrun & Htb & Hrows).
  - reflexivity.
  - reflexivity.
  - simpl. lia.
  - reflexivity.
  - intros l _. eexists. reflexivity.
  - destruct (Hrows 0%nat Sample.line1 eq_refl) as (H5 & _ & _ & _ & H6).
    exists w', tb'. repeat split; assumption.
Defined.

(** C8. When part_number is empty (falsy), on a dialog whose form is
    built and whose order table exists, and when the query returns:
    the OrderLineSet query is still made, with the empty part number;
    whatever lines it returns are dropped; the row count of the order
    table is set to 0, which leaves the table without a cell; and no
    setItem call is made. *)
Theorem fill_order_table_empty_part_number da self f tb w
    (part_number : string) ls :
  truthy part_number = false ->
  BaseDialog.form self = Some f ->
  tables w !! order_table f = Some tb ->
  query_order_lines da (dlg_datafile (BaseDialog.base self))
    "part_number" part_number "order_number" = inr ls ->
  exists w' tb',
    run (handle da) (BaseDialog.fill_order_table_fields self part_number) w
      = Returned tt w'
    /\ tables w' !! order_table f = Some tb'
    /\ rowCount tb' = 0%nat
    /\ item tb' = ∅
    /\ trace (handle da)
         (BaseDialog.fill_order_table_fields self part_number) w
       = [ called (Dialog_get_datafile (BaseDialog.base self));
           called (OrderLineSet_new (dlg_datafile (BaseDialog.base self))
                     "part_number" part_number "order_number");
           called (setRowCount (order_table f) 0) ]
    /\ cells_written
         (trace (handle da)
            (BaseDialog.fill_order_table_fields self part_number) w)
       = [].
Proof.
  intros Hpn Hf Htb Hq.
  assert (Hexec := fill_order_table_fields_exec da self (order_table f) f
                     part_number ls [] tb w Hf eq_refl Htb Hq).
  unfold lines_shown in Hexec. rewrite Hpn in Hexec.
  specialize (Hexec eq_refl (List.Forall_nil _)).
  unfold run, trace. rewrite Hexec.
  eexists _, _. split; [reflexivity|]. split; [apply tables_put_table|].
  split; [reflexivity|]. split; [|split; reflexivity].
  apply map_eq. intros [r c]. rewrite lookup_empty.
  apply (item_after_fill_beyond [] tb r c). simpl. lia.
Qed.

Lemma fill_order_table_empty_part_number_witness :
  exists w' tb',
    run (handle Sample.db)
      (BaseDialog.fill_order_table_fields Sample.dialog "") Sample.used_world
      = Returned tt w'
    /\ tables w' !! 0%nat = Some tb'
    /\ rowCount tb' = 0%nat
    /\ item tb' = ∅.
Proof.
  destruct (fill_order_table_empty_part_number Sample.db Sample.dialog
              Sample.the_form Sample.used_table Sample.used_world ""
              [Sample.line3])
    as (w' & tb' & Hrun & Htb & Hrows & Hitem & _); [reflexivity..|].
  exists w', tb'. repeat split; assumption.
Defined.

(** *** Exceptions *)

(** C5. No operation of the class catches exceptions: the bodies of
    set_table_header, save_buttons_enable and fill_order_table_fields
    (and of get_parts_file) hold no try statement.  So whatever the
    libraries do, when a call into them raises an exception during one of
    the three operations, no further call is made and the operation ends
    with that same exception. *)
Theorem exceptions_propagate (h : handler) (o : operation) w :
  try_free (perform o)
  /\ (forall self, try_free (BaseDialog.get_parts_file self))
  /\ forall c e,
       In (Event c (Some e)) (trace h (perform o) w) ->
       exists tr w1,
         trace h (perform o) w = tr ++ [Event c (Some e)]
         /\ Forall (fun ev => ev_raised ev = None) tr
         /\ run h (perform o) w = Raised e w1.
Proof.
  assert (Hfree : try_free (perform o)).
  { destruct o; simpl.
    - apply try_free_set_table_header.
    - apply try_free_save_buttons_enable.
    - apply try_free_fill_order_table_fields. }
  split; [exact Hfree|]. split; [exact try_free_get_parts_file|].
  intros c e Hin.
  destruct (try_free_propagates h _ w c e Hfree Hin) as (tr & w1 & Htr & Hrun).
  exists tr, w1. split; [exact Htr|]. split; [|exact Hrun].
  apply Forall_forall. intros ev Hev.
  apply (try_free_no_recovery h (perform o) w ev Hfree).
  rewrite Htr, removelast_last. apply list_elem_of_In. exact Hev.
Qed.

(** A table that is gone makes setColumnCount raise: set_table_header
    ends with that exception. *)
Lemma exceptions_propagate_witness :
  exists tr w1,
    trace (handle Sample.db)
      (perform (Set_table_header Sample.dialog 5%nat ["Order"] [60] None))
      Sample.world
    = tr ++ [failed (setColumnCount 5%nat 1%nat) (deleted "QTableWidget")]
    /\ Forall (fun ev => ev_raised ev = None) tr
    /\ run (handle Sample.db)
         (perform (Set_table_header Sample.dialog 5%nat ["Order"] [60] None))
         Sample.world
       = Raised (deleted "QTableWidget") w1.
Proof.
  apply (proj2 (proj2 (exceptions_propagate (handle Sample.db)
           (Set_table_header Sample.dialog 5%nat ["Order"] [60] None)
           Sample.world))
           (ev_call (called (setColumnCount 5%nat 1%nat)))
           (deleted "QTableWidget")).
  vm_compute. left. reflexivity.
Defined.

End Spec.

(** ** Further behaviour: facts *)

Module BehaviourFacts.
Import Py Elements Qt Effect Reference Expected Behaviour.
Import EffectFacts PyFacts ReferenceFacts.

Lemma own_raises_bind Q {A B} (p : prog A) (f : A -> prog B) :
  own_raises Q p -> (forall a, own_raises Q (f a)) -> own_raises Q (bind p f).
Proof.
  intros Hp Hf. induction Hp as [a|e He|X op k _ IH]; simpl.
  - apply Hf.
  - constructor. exact He.
  - constructor. exact IH.
Qed.

Lemma own_raises_call Q {X} (op : Op X) : own_raises Q (call op).
Proof. constructor. intros x. constructor. Qed.

Lemma own_raises_for_in Q {A S} (body : S -> A -> prog S) (l : list A) :
  (forall s x, x ∈ l -> own_raises Q (body s x)) ->
  forall s, own_raises Q (BaseDialog.for_in l body s).
Proof.
  induction l as [|x l IH]; intros Hb s; simpl.
  - constructor.
  - apply own_raises_bind.
    + apply Hb. left.
    + apply IH. intros s' y Hy. apply Hb. by right.
Qed.

(** An exception at the end of a program was raised by its last call or
    by one of its own [raise] statements. *)
Lemma own_raises_outcome Q {A} (h : handler) (p : prog A) w e w1 :
  own_raises Q p ->
  run h p w = Raised e w1 ->
  (exists tr c, trace h p w = tr ++ [Event c (Some e)]) \/ Q e.
Proof.
  unfold run, trace. intros Hp. revert w.
  induction Hp as [a|e0 He|X op k _ IH]; intros w; simpl.
  - discriminate.
  - intros [= <- <-]. right. exact He.
  - destruct (h X op w) as [x w2|e2 w2]; simpl.
    + specialize (IH x w2). destruct (exec h (k x) w2) as [tr o].
      simpl in *. intros Ho. destruct (IH Ho) as [(tr0 & c & ->)|HQ].
      * left. exists (called op :: tr0), c. reflexivity.
      * right. exact HQ.
    + intros [= <- <-]. left. exists [], (existT X op). reflexivity.
Qed.

Lemma own_raises_index Q {A} (l : list A) i :
  (i < length l)%nat -> own_raises Q (BaseDialog.index l i).
Proof.
  intros Hi. unfold BaseDialog.index.
  destruct (lookup_lt_is_Some_2 l i Hi) as [x ->]. constructor.
Qed.

Lemma own_raises_form_attr {X} self name (get : Form -> X) :
  own_raises
    (fun e => exn_class e = "AttributeError" /\ BaseDialog.form self = None)
    (BaseDialog.form_attr self name get).
Proof.
  unfold BaseDialog.form_attr.
  destruct (BaseDialog.form self); constructor. split; reflexivity.
Qed.

Lemma own_raises_set_table_header self table names widths stretch :
  own_raises (fun _ => False)
    (BaseDialog.set_table_header self table names widths stretch).
Proof.
  unfold BaseDialog.set_table_header, mbind, prog_bind.
  apply own_raises_bind; [apply own_raises_call|intros _].
  apply own_raises_bind; [apply own_raises_call|intros _].
  apply own_raises_bind.
  - apply own_raises_for_in. intros _ i Hi. apply elem_of_seq in Hi.
    apply own_raises_bind; [apply own_raises_index; lia|intros wd].
    apply own_raises_call.
  - intros _. destruct stretch as [c|].
    + apply own_raises_bind; [apply own_raises_call|intros hv].
      apply own_raises_call.
    + constructor.
Qed.

Lemma own_raises_save_buttons_enable self enable :
  own_raises
    (fun e => exn_class e = "AttributeError" /\ BaseDialog.form self = None)
    (BaseDialog.save_buttons_enable self enable).
Proof.
  unfold BaseDialog.save_buttons_enable, mbind, prog_bind.
  repeat first
    [ apply own_raises_call
    | apply own_raises_form_attr
    | apply own_raises_bind; [|intros ?] ].
Qed.

(** *** The calls of fill_order_table_fields *)

Lemma all_calls_call P {X} (op : Op X) :
  P (existT X op) -> all_calls P (call op).
Proof. intros H. constructor; [exact H|]. intros x. constructor. Qed.

Lemma fill_row_calls self pn f row order_line :
  BaseDialog.form self = Some f ->
  all_calls (fill_call self pn)
    (BaseDialog.fill_row self (order_table f) row order_line).
Proof.
  intros Hf.
  assert (Ht : exists f0, BaseDialog.form self = Some f0
                          /\ order_table f = order_table f0) by eauto.
  unfold BaseDialog.fill_row, BaseDialog.get_parts_file, mbind, prog_bind.
  apply all_calls_bind; [apply all_calls_call; reflexivity|intros file].
  apply all_calls_bind; [apply all_calls_call; exact I|intros order].
  repeat (apply all_calls_bind;
          [apply all_calls_call; split; [exact Ht|simpl; lia]|intros _]).
  constructor.
Qed.

Lemma fill_order_table_fields_calls self pn :
  all_calls (fill_call self pn) (BaseDialog.fill_order_table_fields self pn).
Proof.
  unfold BaseDialog.fill_order_table_fields, BaseDialog.get_parts_file,
    BaseDialog.form_attr, mbind, prog_bind.
  apply all_calls_bind; [apply all_calls_call; reflexivity|intros file].
  apply all_calls_bind; [apply all_calls_call; repeat split|].
  intros order_lines.
  destruct (BaseDialog.form self) as [f|] eqn:Hf; simpl; [|constructor].
  constructor; [exists f; split; [exact Hf|reflexivity]|intros _].
  apply all_calls_bind; [|intros _; constructor].
  apply all_calls_for_in. intros row order_line _.
  apply fill_row_calls. exact Hf.
Qed.

(** *** A loop that stops at an order that does not load *)

Section FillFails.
Variable da : DataAccess.
Variable self : BaseDialog.t.
Variable t : QTableWidgetRef.




End FillFails.

(** *** The table after some rows went in *)

Lemma put_rows_item_cases rows tb r c :
  item (put_rows 0 rows tb) !! (r, c)
  = match rows !! r with
    | Some (o, l) =>
        match order_row o l !! c with
        | Some it =>
            if decide ((r < rowCount tb)%nat /\ (c < columnCount tb)%nat)
            then Some it else item tb !! (r, c)
        | None => item tb !! (r, c)
        end
    | None => item tb !! (r, c)
    end.
Proof.
  destruct (rows !! r) as [[o l]|] eqn:Hr.
  - destruct (order_row o l !! c) as [it|] eqn:Hc.
    + case_decide as Hin.
      * destruct Hin as [Hrow Hcol].
        exact (put_rows_item rows 0%nat tb r o l c it Hr Hc Hrow Hcol).
      * apply put_rows_item_out. exact Hin.
    + apply lookup_ge_None in Hc. rewrite order_row_length in Hc.
      apply put_rows_item_other. lia.
  - apply lookup_ge_None in Hr. apply put_rows_item_other. lia.
Qed.

Lemma item_after_rows rows n tb r c :
  item (put_rows 0 rows (set_rowCount n tb)) !! (r, c)
  = if decide (r < n)%nat
    then match rows !! r with
         | Some (o, l) =>
             match order_row o l !! c with
             | Some it =>
                 if decide (c < columnCount tb)%nat then Some it
                 else item tb !! (r, c)
             | None => item tb !! (r, c)
             end
         | None => item tb !! (r, c)
         end
    else None.
Proof.
  rewrite put_rows_item_cases, item_set_rowCount.
  change (rowCount (set_rowCount n tb)) with n.
  change (columnCount (set_rowCount n tb)) with (columnCount tb).
  destruct (rows !! r) as [[o l]|]; [|reflexivity].
  destruct (order_row o l !! c); [|reflexivity].
  repeat case_decide; try reflexivity; exfalso; tauto.
Qed.

(** *** Setting a header twice, enabling twice, filling twice *)

Lemma QTableWidget_eq (a b : QTableWidget) :
  columnCount a = columnCount b -> rowCount a = rowCount b ->
  horizontalHeaderLabels a = horizontalHeaderLabels b ->
  item a = item b -> selectedItems a = selectedItems b -> a = b.
Proof. destruct a, b; simpl; intros; subst; reflexivity. Qed.

Lemma filter_selection_twice (P : nat * nat -> Prop)
    `{!forall k, Decision (P k)} (s : gset (nat * nat)) :
  filter P (filter P s) = filter P s.
Proof.
  apply set_eq. intros k. rewrite !elem_of_filter. tauto.
Qed.

Lemma with_header_twice names tb :
  with_header names (with_header names tb) = with_header names tb.
Proof.
  destruct (with_header_columns names tb) as (Hc & Hl & Hr).
  destruct (with_header_columns names (with_header names tb))
    as (Hc2 & Hl2 & Hr2).
  apply QTableWidget_eq.
  - rewrite Hc2, Hc. reflexivity.
  - exact Hr2.
  - rewrite Hl2, Hl. reflexivity.
  - apply map_eq. intros [r c]. rewrite !item_with_header.
    case_decide; reflexivity.
  - rewrite !selectedItems_with_header. apply filter_selection_twice.
Qed.

Lemma put_button_last_wins n d A B w :
  put_button d B (put_button n B (put_button d A (put_button n A w)))
  = put_button d B (put_button n B w).
Proof.
  unfold put_button. simpl. f_equal.
  apply map_eq. intros i. rewrite !lookup_insert.
  repeat case_decide; congruence.
Qed.

Lemma put_rows_twice rows n tb :
  put_rows 0 rows (set_rowCount n (put_rows 0 rows (set_rowCount n tb)))
  = put_rows 0 rows (set_rowCount n tb).
Proof.
  set (tb1 := put_rows 0 rows (set_rowCount n tb)).
  destruct (put_rows_frame rows 0%nat (set_rowCount n tb1))
    as (Hr & Hc & Hl & Hs).
  destruct (put_rows_frame rows 0%nat (set_rowCount n tb))
    as (Hr1 & Hc1 & Hl1 & Hs1).
  fold tb1 in Hr1, Hc1, Hl1, Hs1.
  apply QTableWidget_eq.
  - exact Hc.
  - exact (eq_trans Hr (eq_sym Hr1)).
  - exact Hl.
  - apply map_eq. intros [r c]. rewrite item_after_rows.
    replace (columnCount tb1) with (columnCount tb) by (symmetry; exact Hc1).
    unfold tb1. rewrite item_after_rows.
    case_decide; [|reflexivity].
    destruct (rows !! r) as [[o l]|]; [|reflexivity].
    destruct (order_row o l !! c); [|reflexivity].
    case_decide; reflexivity.
  - rewrite Hs.
    change (selectedItems (set_rowCount n tb1))
      with (filter (fun k : nat * nat => (k.1 < n)%nat) (selectedItems tb1)).
    rewrite Hs1.
    change (selectedItems (set_rowCount n tb))
      with (filter (fun k : nat * nat => (k.1 < n)%nat) (selectedItems tb)).
    apply filter_selection_twice.
Qed.

End BehaviourFacts.

(** ** Further behaviour of the class *)

Module Properties.
Import Py Elements Qt Effect Reference Expected Behaviour.
Import EffectFacts PyFacts ReferenceFacts BehaviourFacts.

(** *** A dialog as the constructor leaves it *)

(** X1. On a dialog as __init__ leaves it (the form is None), whatever the
    libraries do: save_buttons_enable makes no call and raises
    AttributeError, leaving every widget as it was;
    fill_order_table_fields never returns, calls nothing but the
    record-access layer, and when those calls return it raises
    AttributeError for order_table. *)
Theorem fresh_dialog_has_no_form (h : handler) parent parts_file operation
    (enable : bool) (part_number : string) w :
  let self := BaseDialog.init parent parts_file operation in
  exec h (BaseDialog.save_buttons_enable self enable) w
    = ([], Raised
             (AttributeError
                "'NoneType' object has no attribute 'save_new_button'") w)
  /\ (exists e w1,
        run h (BaseDialog.fill_order_table_fields self part_number) w
          = Raised e w1)
  /\ Forall (fun ev => data_call (ev_call ev))
       (trace h (BaseDialog.fill_order_table_fields self part_number) w)
  /\ (Forall (fun ev => ev_raised ev = None)
        (trace h (BaseDialog.fill_order_table_fields self part_number) w) ->
      exists w1,
        run h (BaseDialog.fill_order_table_fields self part_number) w
          = Raised
              (AttributeError
                 "'NoneType' object has no attribute 'order_table'") w1).
Proof.
  intros self. split; [reflexivity|].
  unfold run, trace, BaseDialog.fill_order_table_fields,
    BaseDialog.get_parts_file, BaseDialog.form_attr. simpl.
  destruct (h PartsFile (Dialog_get_datafile _) w) as [file w1|e1 w1]; simpl.
  - destruct (h OrderLineSet (OrderLineSet_new file _ _ _) w1)
      as [ols w2|e2 w2]; simpl.
    + split; [eauto|]. split; [repeat (constructor; [exact I|]); constructor|]. eauto.
    + split; [eauto|]. split; [repeat (constructor; [exact I|]); constructor|].
      intros H. inversion H as [|? ? _ H']. inversion H' as [|? ? He _].
      discriminate He.
  - split; [eauto|]. split; [repeat (constructor; [exact I|]); constructor|].
    intros H. inversion H as [|? ? He _]. discriminate He.
Qed.

(** *** Exceptions of the class itself *)

(** X2. Whatever the toolkit does, an exception that ends
    set_table_header was raised by the last toolkit call made: the method
    raises nothing of its own, and col_widths[i] in the width loop never
    raises IndexError.  An exception that ends save_buttons_enable was
    raised by the last toolkit call made, unless it is the AttributeError
    of a dialog whose form is None. *)
Theorem exceptions_of_its_own (h : handler) self table
    (col_names : list string) (col_widths : list Z)
    (stretch_column : option Z) (enable : bool) w e w1 :
  (run h (BaseDialog.set_table_header self table col_names col_widths
            stretch_column) w = Raised e w1 ->
   exists tr c,
     trace h (BaseDialog.set_table_header self table col_names col_widths
                stretch_column) w = tr ++ [Event c (Some e)])
  /\ (run h (BaseDialog.save_buttons_enable self enable) w = Raised e w1 ->
      (exists tr c,
         trace h (BaseDialog.save_buttons_enable self enable) w
         = tr ++ [Event c (Some e)])
      \/ (exn_class e = "AttributeError" /\ BaseDialog.form self = None)).
Proof.
  split; intros Hrun.
  - destruct (own_raises_outcome _ h _ w e w1
                (own_raises_set_table_header self table col_names col_widths
                   stretch_column) Hrun) as [H|[]].
    exact H.
  - exact (own_raises_outcome _ h _ w e w1
             (own_raises_save_buttons_enable self enable) Hrun).
Qed.

Lemma exceptions_of_its_own_witness :
  exists tr c,
    trace (handle Sample.db)
      (BaseDialog.set_table_header Sample.fresh 5%nat ["Order"] [60; 70]
         None) Sample.world
    = tr ++ [Event c (Some (deleted "QTableWidget"))].
Proof.
  apply (proj1 (exceptions_of_its_own (handle Sample.db) Sample.fresh 5%nat
                  ["Order"] [60; 70] None true Sample.world
                  (deleted "QTableWidget") Sample.world)).
  reflexivity.
Defined.

(** *** The calls made, whatever the libraries do *)

(** X3. On a dialog whose form is built, whatever the toolkit does,
    save_buttons_enable calls setEnabled(enable) on save_new_button and
    then on save_done_button and nothing else: the calls made are a
    prefix of these two (save_done_button is not touched when the first
    call raises), and both when the method returns. *)
Theorem save_buttons_enable_call_order (h : handler) self (enable : bool)
    f w :
  BaseDialog.form self = Some f ->
  map ev_call (trace h (BaseDialog.save_buttons_enable self enable) w)
    `prefix_of` enable_calls f enable
  /\ forall w',
       run h (BaseDialog.save_buttons_enable self enable) w = Returned tt w' ->
       map ev_call (trace h (BaseDialog.save_buttons_enable self enable) w)
       = enable_calls f enable.
Proof.
  intros Hf.
  unfold run, trace, BaseDialog.save_buttons_enable, BaseDialog.form_attr.
  rewrite Hf. simpl.
  destruct (h _ (setEnabled (save_new_button f) enable) w)
    as [[] w1|e1 w1]; simpl.
  - destruct (h _ (setEnabled (save_done_button f) enable) w1)
      as [[] w2|e2 w2]; simpl.
    + split; [reflexivity|]. intros _ _. reflexivity.
    + split; [reflexivity|]. discriminate.
  - split; [|discriminate]. eexists. reflexivity.
Qed.

Lemma save_buttons_enable_call_order_witness :
  map ev_call
    (trace (handle Sample.db)
       (BaseDialog.save_buttons_enable Sample.dialog true) Sample.world)
    `prefix_of` enable_calls Sample.the_form true.
Proof.
  apply (save_buttons_enable_call_order (handle Sample.db) Sample.dialog true
           Sample.the_form Sample.world).
  reflexivity.
Defined.

(** X4. Whatever the libraries do, fill_order_table_fields calls nothing
    but: get_datafile of its own dialog; the OrderLineSet query with
    "part_number", the given part number and "order_number"; the Order
    constructor; setRowCount on the order table of its form; setItem on
    that table in columns 0 to 7.  It never changes a column count, a
    header, a width, a resize mode or a button. *)
Theorem fill_order_table_fields_touches (h : handler) self
    (part_number : string) w :
  Forall (fun ev => fill_call self part_number (ev_call ev))
    (trace h (BaseDialog.fill_order_table_fields self part_number) w).
Proof. apply all_calls_trace, fill_order_table_fields_calls. Qed.

(** *** What fill_order_table_fields leaves alone *)

(** X5. When fill_order_table_fields returns (form built, order table
    live, query and orders loading), the order table keeps its column
    count and header labels; of its selection it keeps what lies in the
    first n rows (n the number of lines shown); no row from n on holds a
    cell; in the first n rows every cell beyond the first 8 columns, or
    beyond the columns of the table, is as before; every other table and
    every button is as before. *)
Theorem fill_order_table_fields_frame da self f tb w
    (part_number : string) ls :
  BaseDialog.form self = Some f ->
  tables w !! order_table f = Some tb ->
  query_order_lines da (dlg_datafile (BaseDialog.base self))
    "part_number" part_number "order_number" = inr ls ->
  (forall l, l ∈ lines_shown part_number ls ->
     exists o, load_order da (dlg_datafile (BaseDialog.base self))
                 (order_number l) = inr o) ->
  exists w' tb',
    run (handle da) (BaseDialog.fill_order_table_fields self part_number) w
      = Returned tt w'
    /\ tables w' !! order_table f = Some tb'
    /\ columnCount tb' = columnCount tb
    /\ horizontalHeaderLabels tb' = horizontalHeaderLabels tb
    /\ selectedItems tb'
       = filter (fun k => (k.1 < length (lines_shown part_number ls))%nat)
           (selectedItems tb)
    /\ (forall r c, (length (lines_shown part_number ls) <= r)%nat ->
                    item tb' !! (r, c) = None)
    /\ (forall r c, (r < length (lines_shown part_number ls))%nat ->
                    (8 <= c \/ columnCount tb <= c)%nat ->
                    item tb' !! (r, c) = item tb !! (r, c))
    /\ (forall t', t' ≠ order_table f -> tables w' !! t' = tables w !! t')
    /\ buttons w' = buttons w.
Proof.
  intros Hf Htb Hq Hload.
  destruct (fill_order_table_fields_result da self (order_table f) f
              part_number ls tb w Hf eq_refl Htb Hq Hload)
    as (rows & Hrows & _ & Hexec).
  unfold run. rewrite Hexec. cbn [snd].
  assert (Hlen : length rows = length (lines_shown part_number ls))
    by (rewrite <- Hrows; symmetry; apply length_fmap).
  rewrite <- Hlen.
  destruct (put_rows_frame rows 0%nat (set_rowCount (length rows) tb))
    as (_ & Hc & Hl & Hs).
  eexists _, _. split; [reflexivity|]. split; [apply tables_put_table|].
  split; [exact Hc|]. split; [exact Hl|]. split; [exact Hs|].
  split; [|split; [|split; [|reflexivity]]].
  - intros r c Hr. apply item_after_fill_beyond. exact Hr.
  - intros r c Hr Hc0. apply item_after_fill_kept; assumption.
  - intros t' Hne. apply tables_put_table_ne. congruence.
Qed.

Lemma fill_order_table_fields_frame_witness :
  exists w' tb',
    run (handle Sample.db)
      (BaseDialog.fill_order_table_fields Sample.dialog "BTB1108")
      Sample.used_world = Returned tt w'
    /\ tables w' !! 0%nat = Some tb'
    /\ columnCount tb' = 8%nat
    /\ horizontalHeaderLabels tb' = BaseDialog.PART_ORDER_COL_NAMES
    /\ item tb' !! (2%nat, 0%nat) = None
    /\ buttons w' = buttons Sample.used_world.
Proof.
  destruct (fill_order_table_fields_frame Sample.db Sample.dialog
              Sample.the_form Sample.used_table Sample.used_world "BTB1108"
              [Sample.line1; Sample.line2])
    as (w' & tb' & Hrun & Htb & Hc & Hl & _ & Hnone & _ & _ & Hb).
  - reflexivity.
  - reflexivity.
  - reflexivity.
  - intros l _. eexists. reflexivity.
  - exists w', tb'. split; [exact Hrun|]. split; [exact Htb|].
    split; [exact Hc|]. split; [exact Hl|]. split; [|exact Hb].
    apply Hnone. simpl. lia.
Defined.

(** *** Failures of the record-access layer *)



(** X7. When the OrderLineSet query raises e, fill_order_table_fields
    ends with e after the two calls get_datafile and the query, and every
    widget is as before.  This holds whether or not the form is built:
    the query is made before the form is read. *)
Theorem fill_order_table_fields_query_raises da self
    (part_number : string) e w :
  query_order_lines da (dlg_datafile (BaseDialog.base self))
    "part_number" part_number "order_number" = inl e ->
  exec (handle da) (BaseDialog.fill_order_table_fields self part_number) w
  = ([ called (Dialog_get_datafile (BaseDialog.base self));
       failed (OrderLineSet_new (dlg_datafile (BaseDialog.base self))
                 "part_number" part_number "order_number") e ],
     Raised e w).
Proof.
  intros Hq. unfold BaseDialog.fill_order_table_fields,
    BaseDialog.get_parts_file.
  simpl. rewrite Hq. reflexivity.
Qed.

Lemma fill_order_table_fields_query_raises_witness :
  run (handle (no_query OperationalError))
    (BaseDialog.fill_order_table_fields Sample.fresh "BTB1108") Sample.world
  = Raised OperationalError Sample.world.
Proof.
  unfold run.
  rewrite (fill_order_table_fields_query_raises (no_query OperationalError)
             Sample.fresh "BTB1108" OperationalError Sample.world eq_refl).
  reflexivity.
Defined.


(** *** Calling a method again, and one after the other *)

(** X8. The last call wins: on a dialog whose form is built and whose two
    save buttons exist, save_buttons_enable(a) followed by
    save_buttons_enable(b) returns and leaves every widget exactly as
    save_buttons_enable(b) alone does; in particular the method is
    idempotent. *)
Theorem save_buttons_enable_last_wins da self (a b : bool) f b1 b2 w :
  BaseDialog.form self = Some f ->
  buttons w !! save_new_button f = Some b1 ->
  buttons w !! save_done_button f = Some b2 ->
  exists w',
    run (handle da)
      (BaseDialog.save_buttons_enable self a;;
       BaseDialog.save_buttons_enable self b) w = Returned tt w'
    /\ run (handle da) (BaseDialog.save_buttons_enable self b) w
       = Returned tt w'
    /\ isEnabled <$> buttons w' !! save_new_button f = Some b
    /\ isEnabled <$> buttons w' !! save_done_button f = Some b.
Proof.
  intros Hf H1 H2. unfold run, mbind, prog_bind.
  rewrite exec_bind.
  rewrite (save_buttons_enable_exec da self a f b1 b2 w Hf H1 H2).
  set (w1 := put_button (save_done_button f) {| isEnabled := a |}
               (put_button (save_new_button f) {| isEnabled := a |} w)).
  assert (H1' : exists bt, buttons w1 !! save_new_button f = Some bt).
  { subst w1. rewrite !buttons_put_button, !lookup_insert.
    repeat case_decide; eauto. }
  assert (H2' : exists bt, buttons w1 !! save_done_button f = Some bt).
  { subst w1. rewrite !buttons_put_button, !lookup_insert.
    repeat case_decide; eauto. }
  destruct H1' as [c1 H1'], H2' as [c2 H2'].
  rewrite (save_buttons_enable_exec da self b f c1 c2 w1 Hf H1' H2').
  rewrite (save_buttons_enable_exec da self b f b1 b2 w Hf H1 H2).
  cbn [snd]. subst w1. rewrite put_button_last_wins.
  eexists. split; [reflexivity|]. split; [reflexivity|].
  rewrite !buttons_put_button. split.
  - rewrite lookup_insert. case_decide; [reflexivity|].
    rewrite lookup_insert_eq. reflexivity.
  - rewrite lookup_insert_eq. reflexivity.
Qed.

Lemma save_buttons_enable_last_wins_witness :
  exists w',
    run (handle Sample.db)
      (BaseDialog.save_buttons_enable Sample.dialog true;;
       BaseDialog.save_buttons_enable Sample.dialog false) Sample.world
      = Returned tt w'
    /\ run (handle Sample.db)
         (BaseDialog.save_buttons_enable Sample.dialog false) Sample.world
       = Returned tt w'.
Proof.
  destruct (save_buttons_enable_last_wins Sample.db Sample.dialog true false
              Sample.the_form {| isEnabled := true |}
              {| isEnabled := false |} Sample.world)
    as (w' & Hab & Hb & _); [reflexivity..|].
  exists w'. split; assumption.
Defined.

(** X9. set_table_header is idempotent: on a live table, calling it
    twice with the same arguments returns and leaves every widget exactly
    as one call does. *)
Theorem set_table_header_twice da self table (col_names : list string)
    (col_widths : list Z) (stretch_column : option Z) tb w :
  tables w !! table = Some tb ->
  exists w',
    run (handle da)
      (BaseDialog.set_table_header self table col_names col_widths
         stretch_column) w = Returned tt w'
    /\ run (handle da)
         (BaseDialog.set_table_header self table col_names col_widths
            stretch_column;;
          BaseDialog.set_table_header self table col_names col_widths
            stretch_column) w = Returned tt w'.
Proof.
  intros Htb. unfold run.
  change (BaseDialog.set_table_header self table col_names col_widths
            stretch_column;;
          BaseDialog.set_table_header self table col_names col_widths
            stretch_column)
    with (bind (BaseDialog.set_table_header self table col_names col_widths
                  stretch_column)
            (fun _ => BaseDialog.set_table_header self table col_names
                        col_widths stretch_column)).
  rewrite exec_bind.
  rewrite (set_table_header_exec da table col_widths self col_names
             stretch_column tb w Htb).
  rewrite (set_table_header_exec da table col_widths self col_names
             stretch_column _ _ (tables_put_table table _ w)).
  rewrite with_header_twice, put_table_put_table.
  eexists. split; reflexivity.
Qed.

Lemma set_table_header_twice_witness :
  exists w',
    run (handle Sample.db)
      (BaseDialog.set_table_header Sample.dialog 0%nat ["Order"; "Date"]
         [60; 100] (Some 1)) Sample.world = Returned tt w'
    /\ run (handle Sample.db)
         (BaseDialog.set_table_header Sample.dialog 0%nat ["Order"; "Date"]
            [60; 100] (Some 1);;
          BaseDialog.set_table_header Sample.dialog 0%nat ["Order"; "Date"]
            [60; 100] (Some 1)) Sample.world = Returned tt w'.
Proof.
  apply (set_table_header_twice Sample.db Sample.dialog 0%nat
           ["Order"; "Date"] [60; 100] (Some 1) Sample.empty_table
           Sample.world).
  reflexivity.
Defined.


(** X10. The two methods together, as a dialog uses them: on a built form
    with a live order table, set_table_header with PART_ORDER_COL_NAMES
    and PART_ORDER_COL_WIDTHS followed by fill_order_table_fields returns
    and leaves the order table with 8 columns, one row per line shown and
    a cell in every row and column, and in every row the text of each
    cell is the one that belongs under the header label of its column. *)
Theorem header_then_fill da self f tb w (part_number : string) ls
    (stretch_column : option Z) :
  BaseDialog.form self = Some f ->
  tables w !! order_table f = Some tb ->
  query_order_lines da (dlg_datafile (BaseDialog.base self))
    "part_number" part_number "order_number" = inr ls ->
  (forall l, l ∈ lines_shown part_number ls ->
     exists o, load_order da (dlg_datafile (BaseDialog.base self))
                 (order_number l) = inr o) ->
  exists w' tb',
    run (handle da)
      (BaseDialog.set_table_header self (order_table f)
         BaseDialog.PART_ORDER_COL_NAMES BaseDialog.PART_ORDER_COL_WIDTHS
         stretch_column;;
       BaseDialog.fill_order_table_fields self part_number) w
      = Returned tt w'
    /\ tables w' !! order_table f = Some tb'
    /\ columnCount tb' = 8%nat
    /\ rowCount tb' = length (lines_shown part_number ls)
    /\ filled tb'
    /\ forall (i : nat) l, lines_shown part_number ls !! i = Some l ->
         exists o,
           load_order da (dlg_datafile (BaseDialog.base self))
             (order_number l) = inr o
           /\ forall c name,
                horizontalHeaderLabels tb' !! c = Some name ->
                text <$> item tb' !! (i, c) = column_text name o l.
Proof.
  intros Hf Htb Hq Hload. unfold run, mbind, prog_bind.
  rewrite exec_bind.
  rewrite (set_table_header_exec da (order_table f)
             BaseDialog.PART_ORDER_COL_WIDTHS self
             BaseDialog.PART_ORDER_COL_NAMES stretch_column tb w Htb).
  set (tb1 := with_header BaseDialog.PART_ORDER_COL_NAMES tb).
  destruct (fill_order_table_fields_result da self (order_table f) f
              part_number ls tb1 (put_table (order_table f) tb1 w)
              Hf eq_refl (tables_put_table _ _ _) Hq Hload)
    as (rows & Hrows & Hl & Hexec).
  rewrite Hexec. cbn [snd]. rewrite put_table_put_table.
  assert (Hlen : length rows = length (lines_shown part_number ls))
    by (rewrite <- Hrows; symmetry; apply length_fmap).
  set (tb2 := put_rows 0 rows (set_rowCount (length rows) tb1)).
  destruct (with_header_columns BaseDialog.PART_ORDER_COL_NAMES tb)
    as (Hc1 & Hl1 & _).
  fold tb1 in Hc1, Hl1.
  destruct (put_rows_frame rows 0%nat (set_rowCount (length rows) tb1))
    as (_ & Hc & Hlab & _).
  assert (Hcc : columnCount tb2 = 8%nat) by exact (eq_trans Hc Hc1).
  assert (Hll : horizontalHeaderLabels tb2 = BaseDialog.PART_ORDER_COL_NAMES)
    by exact (eq_trans Hlab Hl1).
  assert (Hrr : rowCount tb2 = length rows)
    by (subst tb2; apply put_rows_rowCount).
  assert (Hcells : forall i o l c it,
             rows !! i = Some (o, l) -> order_row o l !! c = Some it ->
             item tb2 !! (i, c) = Some it).
  { intros i o l c it Hi Hc0.
    apply (item_after_fill_in rows tb1 i o l c it Hi Hc0).
    apply lookup_lt_Some in Hc0. rewrite order_row_length in Hc0.
    rewrite Hc1. exact Hc0. }
  eexists _, _. split; [reflexivity|]. split; [apply tables_put_table|].
  fold tb2. split; [exact Hcc|].
  split; [rewrite Hrr; exact Hlen|].
  split.
  - intros r c Hr Hcol.
    assert (Hr' : (r < length rows)%nat) by (rewrite Hrr in Hr; exact Hr).
    assert (Hc' : (c < 8)%nat) by (rewrite Hcc in Hcol; exact Hcol).
    destruct (lookup_lt_is_Some_2 rows r Hr') as [[o l] Hrl].
    destruct (lookup_lt_is_Some_2 (order_row o l) c Hc') as [it Hit].
    exists it. exact (Hcells r o l c it Hrl Hit).
  - intros i l Hi. rewrite <- Hrows, list_lookup_fmap in Hi.
    destruct (rows !! i) as [[o l']|] eqn:Hri; [|discriminate].
    injection Hi as <-. exists o. split.
    + exact (proj1 (Forall_lookup _ _) Hl i (o, l') Hri).
    + intros c name Hname. rewrite Hll in Hname.
      do 8 (destruct c as [|c];
            [injection Hname as <-;
             match goal with
             | |- text <$> item tb2 !! (i, ?c) = _ =>
                 rewrite (Hcells i o l' c _ Hri eq_refl); reflexivity
             end|]).
      discriminate.
Qed.

Lemma header_then_fill_witness :
  exists w' tb',
    run (handle Sample.db)
      (BaseDialog.set_table_header Sample.dialog 0%nat
         BaseDialog.PART_ORDER_COL_NAMES BaseDialog.PART_ORDER_COL_WIDTHS
         (Some 7);;
       BaseDialog.fill_order_table_fields Sample.dialog "BTB1108")
      Sample.world = Returned tt w'
    /\ tables w' !! 0%nat = Some tb'
    /\ columnCount tb' = 8%nat
    /\ rowCount tb' = 2%nat
    /\ filled tb'.
Proof.
  destruct (header_then_fill Sample.db Sample.dialog Sample.the_form
              Sample.empty_table Sample.world "BTB1108"
              [Sample.line1; Sample.line2] (Some 7))
    as (w' & tb' & Hrun & Htb & Hc & Hr & Hfill & _).
  - reflexivity.
  - reflexivity.
  - reflexivity.
  - intros l _. eexists. reflexivity.
  - exists w', tb'. repeat split; assumption.
Defined.

(** X12. Filling again is safe: when fill_order_table_fields returns
    (form built, order table live, query and orders loading), calling it
    a second time with the same part number returns and leaves every
    widget exactly as the first call left it. *)
Theorem fill_order_table_fields_twice da self f tb w
    (part_number : string) ls :
  BaseDialog.form self = Some f ->
  tables w !! order_table f = Some tb ->
  query_order_lines da (dlg_datafile (BaseDialog.base self))
    "part_number" part_number "order_number" = inr ls ->
  (forall l, l ∈ lines_shown part_number ls ->
     exists o, load_order da (dlg_datafile (BaseDialog.base self))
                 (order_number l) = inr o) ->
  exists w',
    run (handle da) (BaseDialog.fill_order_table_fields self part_number) w
      = Returned tt w'
    /\ run (handle da)
         (BaseDialog.fill_order_table_fields self part_number;;
          BaseDialog.fill_order_table_fields self part_number) w
       = Returned tt w'.
Proof.
  intros Hf Htb Hq Hload.
  destruct (fill_order_table_fields_result da self (order_table f) f
              part_number ls tb w Hf eq_refl Htb Hq Hload)
    as (rows & Hrows & Hl & Hexec).
  unfold run, mbind, prog_bind. rewrite exec_bind, Hexec.
  rewrite (fill_order_table_fields_exec da self (order_table f) f
             part_number ls rows _ _ Hf eq_refl (tables_put_table _ _ _)
             Hq Hrows Hl).
  cbn [snd]. rewrite put_table_put_table, put_rows_twice.
  eexists. split; reflexivity.
Qed.

Lemma fill_order_table_fields_twice_witness :
  exists w',
    run (handle Sample.db)
      (BaseDialog.fill_order_table_fields Sample.dialog "BTB1108")
      Sample.world = Returned tt w'
    /\ run (handle Sample.db)
         (BaseDialog.fill_order_table_fields Sample.dialog "BTB1108";;
          BaseDialog.fill_order_table_fields Sample.dialog "BTB1108")
         Sample.world = Returned tt w'.
Proof.
  apply (fill_order_table_fields_twice Sample.db Sample.dialog
           Sample.the_form Sample.empty_table Sample.world "BTB1108"
           [Sample.line1; Sample.line2]).
  - reflexivity.
  - reflexivity.
  - reflexivity.
  - intros l _. eexists. reflexivity.
Defined.


(** *** The Cost Each text *)

(** X11. The text of a finite cost is the sign, str() of the whole part
    of h and two digits of h mod 100, where h is the number of hundredths
    nearest to the magnitude of the cost: exact when the cost is an
    integer multiple of a power of two (e >= 0), otherwise at most half a
    hundredth away, and even when exactly half a hundredth away. *)
Theorem cost_each_text_nearest_hundredth (neg : bool) (m : N) (e : Z) :
  let h := hundredths m e in
  format_2f (float (Finite neg m e))
    = sign_prefix neg +:+ str (h / 100) +:+ "." +:+ two_digits (h mod 100)
  /\ 0 <= h
  /\ (0 <= e -> h = Z.of_N m * 2 ^ e * 100)
  /\ (e < 0 ->
      2 * rounding_error m e h <= 2 ^ (- e)
      /\ (2 * rounding_error m e h = 2 ^ (- e) -> Z.even h = true)).
Proof.
  intros h. split; [reflexivity|]. subst h. unfold hundredths, rounding_error.
  destruct (Z.leb_spec 0 e) as [He|He].
  - split; [|split; [reflexivity|lia]].
    pose proof (Z.pow_nonneg 2 e ltac:(lia)). nia.
  - assert (Hden : 0 < 2 ^ (- e)) by (apply Z.pow_pos_nonneg; lia).
    destruct (round_half_even_nearest (Z.of_N m * 100) (2 ^ (- e))
                ltac:(lia) Hden) as (H0 & Hle & Heven).
    split; [exact H0|]. split; [lia|]. intros _. split; assumption.
Qed.


End Properties.
